(** * django-docusign demo: the signature callback handler

    A shallow embedding of [SignatureCallbackView.update_signer] and
    [SignatureCallbackView.update_signature]
    (demo/django_docusign_demo/views.py) over the two models of
    demo/django_docusign_demo/models.py, followed by the settings stored
    in the session, the home page and the two views that create a
    signature.

    The database tables and the file storage are finite maps, the view's
    [self.signature] is an in-memory object kept next to them, and the
    calls into Django and into the signing backend are recorded in a log.
    What the collaborators answer (the clock, [slugify], the backend's
    documents, the storage) is an [Env]: the theorems hold for every one. *)

From stdpp Require Import gmap strings list sorting.
From Stdlib Require Import ZArith Ascii.

Open Scope Z_scope.
Open Scope string_scope.

(** ** Data model (models.py) *)

Abbreviation datetime := Z.
Abbreviation bytes := (list Byte.byte).

(** [Signature]: [document] is the name held by the FileField ([None] for
    NULL, possibly empty since the field is [blank=True]). *)
Record Signature := mkSignature {
  pk : Z;
  signature_type : Z;
  signature_backend_id : string;
  document : option string;
  document_title : string;
  status : string;
  status_datetime : datetime;
}.

Record Signer := mkSigner {
  signer_pk : Z;
  signer_signature : Z;
  signer_backend_id : string;
  full_name : string;
  email : string;
  signing_order : Z;
  signer_status : string;
  signer_status_datetime : datetime;
  status_details : string;
}.

(** The [choices] of both [status] fields. *)
Definition status_choices : list string :=
  ["draft"; "sent"; "delivered"; "completed"; "declined"].

Definition set_status (v : string) (s : Signature) : Signature :=
  mkSignature (pk s) (signature_type s) (signature_backend_id s)
              (document s) (document_title s) v (status_datetime s).

Definition set_document (v : option string) (s : Signature) : Signature :=
  mkSignature (pk s) (signature_type s) (signature_backend_id s)
              v (document_title s) (status s) (status_datetime s).

Definition set_signer_pk (v : Z) (s : Signer) : Signer :=
  mkSigner v (signer_signature s) (signer_backend_id s)
           (full_name s) (email s) (signing_order s)
           (signer_status s) (signer_status_datetime s) (status_details s).

Definition set_signer_status (v : string) (s : Signer) : Signer :=
  mkSigner (signer_pk s) (signer_signature s) (signer_backend_id s)
           (full_name s) (email s) (signing_order s)
           v (signer_status_datetime s) (status_details s).

Definition set_signer_status_datetime (v : datetime) (s : Signer) : Signer :=
  mkSigner (signer_pk s) (signer_signature s) (signer_backend_id s)
           (full_name s) (email s) (signing_order s)
           (signer_status s) v (status_details s).

Definition set_status_details (v : string) (s : Signer) : Signer :=
  mkSigner (signer_pk s) (signer_signature s) (signer_backend_id s)
           (full_name s) (email s) (signing_order s)
           (signer_status s) (signer_status_datetime s) v.

(** ** Exceptions, collaborators and the handler's state *)

Inductive exn :=
| DoesNotExist                (* objects.get(pk=...) found no row *)
| StopIteration               (* .next() on an exhausted iterator *)
| External (name : string).   (* raised inside a collaborator *)

Inductive result (A : Type) :=
| Ok (a : A)
| Raise (e : exn).
Arguments Ok {A} a.
Arguments Raise {A} e.

(** A document handle returned by the backend: [read()] answers [read],
    [close()] is recorded in the log under [handle]. *)
Record Stream := mkStream {
  handle : nat;
  read : result bytes;
}.

Inductive event :=
| SaveSigner (s : Signer)
| SaveSignature (s : Signature)
| FetchDocuments (signature_pk : Z)
| StorageDelete (name : string)
| StreamRead (h : nat)
| FileSave (filename : string) (content : bytes)
| StreamClose (h : nat).

(** The collaborators. [storage_delete] and [storage_save] say whether the
    storage raises; [storage_save] also chooses the name under which the
    content is kept (upload directory, available name). [py_int] is what
    [int()] answers for a string handed over as a primary key, and
    [key_error] what the database raises for an integer key it cannot hold
    ([None] when it can hold it). *)
Record Env := mkEnv {
  now : datetime;
  slugify : string -> result string;
  get_docusign_documents : Signature -> result (list Stream);
  storage_delete : gmap string bytes -> string -> option exn;
  storage_save : gmap string bytes -> string -> bytes -> result string;
  py_int : string -> result Z;
  key_error : Z -> option exn;
}.

Record State := mkState {
  signers : gmap Z Signer;
  signatures : gmap Z Signature;
  files : gmap string bytes;
  self_signature : Signature;
  log : list event;
}.

Definition with_signers (f : gmap Z Signer -> gmap Z Signer) (st : State) :=
  mkState (f (signers st)) (signatures st) (files st) (self_signature st) (log st).
Definition with_signatures (f : gmap Z Signature -> gmap Z Signature) (st : State) :=
  mkState (signers st) (f (signatures st)) (files st) (self_signature st) (log st).
Definition with_files (f : gmap string bytes -> gmap string bytes) (st : State) :=
  mkState (signers st) (signatures st) (f (files st)) (self_signature st) (log st).
Definition with_self (f : Signature -> Signature) (st : State) :=
  mkState (signers st) (signatures st) (files st) (f (self_signature st)) (log st).
Definition emit (e : event) (st : State) :=
  mkState (signers st) (signatures st) (files st) (self_signature st) (log st ++ [e]).

(** ** A state and exception monad *)

Definition M (A : Type) : Type := State -> result A * State.

Definition ret {A} (a : A) : M A := fun st => (Ok a, st).
Definition raise {A} (e : exn) : M A := fun st => (Raise e, st).
Definition bind {A B} (m : M A) (k : A -> M B) : M B :=
  fun st => match m st with
            | (Ok a, st1) => k a st1
            | (Raise e, st1) => (Raise e, st1)
            end.
Definition gets {A} (f : State -> A) : M A := fun st => (Ok (f st), st).
Definition modify (f : State -> State) : M unit := fun st => (Ok tt, f st).
Definition lift {A} (r : result A) : M A := fun st => (r, st).

(** [try: body finally: fin]: [fin] runs on every exit of [body]; the
    outcome of [body] stands unless [fin] raises. *)
Definition try_finally {A} (body : M A) (fin : M unit) : M A :=
  fun st => match body st with
            | (r, st1) => match fin st1 with
                          | (Ok _, st2) => (r, st2)
                          | (Raise e, st2) => (Raise e, st2)
                          end
            end.

Declare Scope handler_scope.
Delimit Scope handler_scope with handler.
Notation "x <- m ;; k" := (bind m (fun x => k))
  (at level 100, m at next level, right associativity) : handler_scope.
Notation "m ;; k" := (bind m (fun _ => k))
  (at level 100, right associativity) : handler_scope.
Open Scope handler_scope.

(** ** Python and Django primitives used by the handler *)

(** Truth value of a string: empty is false. *)
Definition str_bool (s : string) : bool :=
  match s with EmptyString => false | String _ _ => true end.

(** Truth value of a name that is [None] or a string; it is also
    [FieldFile.__bool__], which is [bool(self.name)]. *)
Definition name_bool (n : option string) : bool :=
  match n with None => false | Some s => str_bool s end.

(** [x or d] for an optional datetime: a datetime object is always true. *)
Definition or_else (x : option datetime) (d : datetime) : datetime :=
  match x with Some t => t | None => d end.

(** What a caller hands over as a primary key: an integer or a string. *)
Inductive pk_value :=
| PkInt (n : Z)
| PkStr (s : string).

Coercion PkInt : Z >-> pk_value.

(** The key the query is made with: an integer as it is, a string through
    [int()], which may raise. *)
Definition to_key (env : Env) (signer_id : pk_value) : result Z :=
  match signer_id with
  | PkInt n => Ok n
  | PkStr s => py_int env s
  end.

(** [Model.objects.get(pk=signer_id)]: the instance built from the row
    whose primary key is [signer_id]. Without such a row it raises what
    the database raises for a key it cannot hold, and [DoesNotExist] for
    a key it can hold (the key of a row is one it holds). *)
Definition objects_get (env : Env) (signer_id : pk_value) : M Signer :=
  fun st => match to_key env signer_id with
            | Raise e => (Raise e, st)
            | Ok k =>
                match signers st !! k with
                | Some s => (Ok (set_signer_pk k s), st)
                | None => (Raise (default DoesNotExist (key_error env k)), st)
                end
            end.

(** What [save()] writes to the row of a signature: its fields, the
    document as the name of the file, which is the empty string when
    there is none. *)
Definition stored (s : Signature) : Signature :=
  set_document (Some (default EmptyString (document s))) s.

(** [signer.save()]: writes the row. *)
Definition signer_save (s : Signer) : M unit :=
  modify (fun st => emit (SaveSigner s) (with_signers (insert (signer_pk s) s) st)).

(** [self.signature.save()]: writes to the row what [stored] says of the
    in-memory object, which stays as it is. *)
Definition signature_save : M unit :=
  modify (fun st =>
    let s := self_signature st in
    emit (SaveSignature s) (with_signatures (insert (pk s) (stored s)) st)).

(** [iterator.next()] on the backend's documents: the first one. *)
Definition next (env : Env) : M Stream :=
  fun st =>
    let st1 := emit (FetchDocuments (pk (self_signature st))) st in
    match get_docusign_documents env (self_signature st) with
    | Raise e => (Raise e, st1)
    | Ok [] => (Raise StopIteration, st1)
    | Ok (d :: _) => (Ok d, st1)
    end.

(** [FieldFile.delete(save=False)]: nothing when the field is empty;
    otherwise the file leaves the storage and the in-memory name becomes
    [None]. The row is not written. *)
Definition document_delete (env : Env) : M unit :=
  fun st =>
    match document (self_signature st) with
    | Some (String a n) =>
        let name := String a n in
        let st1 := emit (StorageDelete name) st in
        match storage_delete env (files st) name with
        | Some e => (Raise e, st1)
        | None => (Ok tt, with_self (set_document None)
                            (with_files (delete name) st1))
        end
    | _ => (Ok tt, st)
    end.

(** [document.read()]. *)
Definition stream_read (d : Stream) : M bytes :=
  fun st => (read d, emit (StreamRead (handle d)) st).

(** [document.close()]. *)
Definition stream_close (d : Stream) : M unit :=
  modify (emit (StreamClose (handle d))).

(** [FieldFile.save(filename, content, save=True)]: the storage keeps the
    content under the name it chooses, the in-memory name follows, and the
    row is written. *)
Definition document_save (env : Env) (filename : string) (content : bytes) : M unit :=
  fun st =>
    let st1 := emit (FileSave filename content) st in
    match storage_save env (files st) filename content with
    | Raise e => (Raise e, st1)
    | Ok name =>
        signature_save (with_self (set_document (Some name))
                          (with_files (insert name content) st1))
    end.

(** ** The handler (views.py, [SignatureCallbackView]) *)

(** [update_signer(self, signer_id, status, status_datetime=None, message=u'')];
    [message = None] stands for an omitted argument. *)
Definition update_signer (env : Env) (signer_id : pk_value) (status : string)
    (status_datetime : option datetime) (message : option string) : M unit :=
  let message := default EmptyString message in
  signer <- objects_get env signer_id ;;
  let signer := set_signer_status status signer in
  let signer := set_signer_status_datetime (or_else status_datetime (now env)) signer in
  let signer := set_status_details message signer in
  signer_save signer.

(** The filename of lines 215-218: the document's name, or the slug of the
    title with a pdf extension when the name is [None] or empty (a name
    that is true is a string, so the default below is never taken). *)
Definition derive_filename (env : Env) : M string :=
  sig <- gets self_signature ;;
  let filename := document sig in
  if negb (name_bool filename)
  then slug <- lift (slugify env (document_title sig)) ;; ret (slug ++ ".pdf")
  else ret (default EmptyString filename).

(** The body of the [try] block. *)
Definition replace_document (env : Env) (doc : Stream) : M unit :=
  filename <- derive_filename env ;;
  document_delete env ;;
  content <- stream_read doc ;;
  document_save env filename content.

(** [update_signature(self, status, status_datetime=None)]; the source
    takes [status_datetime] and does not use it. *)
Definition update_signature (env : Env) (status : string)
    (status_datetime : option datetime) : M unit :=
  modify (with_self (set_status status)) ;;
  signature_save ;;
  sig <- gets self_signature ;;
  if (status =? "completed")%string || negb (name_bool (document sig))
  then
    doc <- next env ;;
    try_finally (replace_document env doc) (stream_close doc)
  else ret tt.

(** ** Observing a run *)

(** The events a computation adds to the log when run from [st]. *)
Definition events_of {A} (m : M A) (st : State) : list event :=
  drop (length (log st)) (log (snd (m st))).

Definition is_fetch (e : event) : bool :=
  match e with FetchDocuments _ => true | _ => false end.

(** Whether a run called the backend for documents. *)
Definition fetched (l : list event) : bool := existsb is_fetch l.

(** The test of line 210, on the state in which the handler is entered. *)
Definition fetch_needed (status' : string) (st : State) : bool :=
  (status' =? "completed")%string || negb (name_bool (document (self_signature st))).

(** The state after lines 208-209. *)
Definition saved (status' : string) (st : State) : State :=
  let s := set_status status' (self_signature st) in
  emit (SaveSignature s)
    (with_signatures (insert (pk s) (stored s)) (with_self (set_status status') st)).

(** The state in which the backend has been asked for the documents. *)
Definition asked (status' : string) (st : State) : State :=
  emit (FetchDocuments (pk (self_signature st))) (saved status' st).

(** The four ways through [update_signature]. *)
Inductive path (env : Env) (status' : string) (st : State) : result unit * State -> Prop :=
| path_skip :
    fetch_needed status' st = false ->
    path env status' st (Ok tt, saved status' st)
| path_raise e :
    fetch_needed status' st = true ->
    get_docusign_documents env (set_status status' (self_signature st)) = Raise e ->
    path env status' st (Raise e, asked status' st)
| path_empty :
    fetch_needed status' st = true ->
    get_docusign_documents env (set_status status' (self_signature st)) = Ok [] ->
    path env status' st (Raise StopIteration, asked status' st)
| path_doc d ds :
    fetch_needed status' st = true ->
    get_docusign_documents env (set_status status' (self_signature st)) = Ok (d :: ds) ->
    path env status' st
      (fst (replace_document env d (asked status' st)),
       emit (StreamClose (handle d)) (snd (replace_document env d (asked status' st)))).

(** The row written by [update_signer]. *)
Definition updated_signer (env : Env) (signer_id : Z) (status' : string)
    (dt : option datetime) (message : option string) (s : Signer) : Signer :=
  mkSigner signer_id (signer_signature s) (signer_backend_id s)
           (full_name s) (email s) (signing_order s)
           status' (or_else dt (now env)) (default EmptyString message).

(** The filename the handler hands to [document.save], read off the
    signature it was entered with: the document's name when there is one,
    otherwise the slug of the title with a pdf extension. *)
Definition names_file (env : Env) (sig : Signature) (fn : string) : Prop :=
  match document sig with
  | Some (String a n) => fn = String a n
  | _ => exists slug, slugify env (document_title sig) = Ok slug /\ fn = slug ++ ".pdf"
  end.

(** An exception that [update_signature] did not make up: it is what a
    collaborator answered, or [StopIteration] on an empty sequence. *)
Definition raised_by_collaborator (env : Env) (sig : Signature) (e : exn) : Prop :=
  get_docusign_documents env sig = Raise e
  \/ (get_docusign_documents env sig = Ok [] /\ e = StopIteration)
  \/ slugify env (document_title sig) = Raise e
  \/ (exists fs name, storage_delete env fs name = Some e)
  \/ (exists d ds, get_docusign_documents env sig = Ok (d :: ds) /\ read d = Raise e)
  \/ (exists fs name content, storage_save env fs name content = Raise e).

(** The transition table as the spec words it (section 4.2), not taken
    from the code: forward along draft, sent, delivered, completed, or from
    sent or delivered to declined. *)
Definition spec_rank (s : string) : option nat :=
  if (s =? "draft")%string then Some 0%nat
  else if (s =? "sent")%string then Some 1%nat
  else if (s =? "delivered")%string then Some 2%nat
  else if (s =? "completed")%string then Some 3%nat
  else None.

Definition spec_forward (old new : string) : bool :=
  match spec_rank old, spec_rank new with
  | Some a, Some b => (a <? b)%nat
  | _, _ => (new =? "declined")%string
            && ((old =? "sent")%string || (old =? "delivered")%string)
  end.

(** ** A concrete environment for the examples *)

Definition is_space (c : ascii) : bool :=
  let n := nat_of_ascii c in ((9 <=? n) && (n <=? 13))%nat || (n =? 32)%nat.

Definition is_word (c : ascii) : bool :=
  let n := nat_of_ascii c in
  (((48 <=? n) && (n <=? 57)) || ((65 <=? n) && (n <=? 90))
   || ((97 <=? n) && (n <=? 122)) || (n =? 95))%nat.

Definition lower (c : ascii) : ascii :=
  let n := nat_of_ascii c in
  if ((65 <=? n) && (n <=? 90))%nat then ascii_of_nat (n + 32) else c.

Fixpoint keep_slug_chars (s : string) : string :=
  match s with
  | EmptyString => EmptyString
  | String c r =>
      if is_word c || is_space c || (nat_of_ascii c =? 45)%nat
      then String c (keep_slug_chars r) else keep_slug_chars r
  end.

Fixpoint lstrip (s : string) : string :=
  match s with
  | EmptyString => EmptyString
  | String c r => if is_space c then lstrip r else s
  end.

Definition strip (s : string) : string :=
  String.rev (lstrip (String.rev (lstrip s))).

Fixpoint lower_str (s : string) : string :=
  match s with
  | EmptyString => EmptyString
  | String c r => String (lower c) (lower_str r)
  end.

Fixpoint hyphenate (in_run : bool) (s : string) : string :=
  match s with
  | EmptyString => EmptyString
  | String c r =>
      if is_space c || (nat_of_ascii c =? 45)%nat
      then (if in_run then hyphenate true r else String "-" (hyphenate true r))
      else String c (hyphenate false r)
  end.

(** [django.utils.text.slugify] on an ASCII title: drop what is not a word
    character, white space or a hyphen; strip; lower; one hyphen per run of
    white space and hyphens. *)
Definition ascii_slugify (s : string) : string :=
  hyphenate false (lower_str (strip (keep_slug_chars s))).

Fixpoint digits_value (acc : Z) (s : string) : option Z :=
  match s with
  | EmptyString => Some acc
  | String c r =>
      let n := nat_of_ascii c in
      if ((48 <=? n) && (n <=? 57))%nat
      then digits_value (10 * acc + (Z.of_nat n - 48)) r
      else None
  end.

Definition unsigned_int (s : string) : result Z :=
  match s with
  | EmptyString => Raise (External "ValueError")
  | String _ _ =>
      match digits_value 0 s with
      | Some n => Ok n
      | None => Raise (External "ValueError")
      end
  end.

(** [int()] on a byte string: white space around, a sign, decimal digits;
    anything else raises [ValueError]. *)
Definition decimal_int (s : string) : result Z :=
  match strip s with
  | String "-" r =>
      match unsigned_int r with Ok n => Ok (- n) | Raise e => Raise e end
  | String "+" r => unsigned_int r
  | t => unsigned_int t
  end.

(** A database with 64-bit keys that raises [OverflowError] beyond. *)
Definition int64_key_error (k : Z) : option exn :=
  if ((- 2 ^ 63 <=? k) && (k <? 2 ^ 63))%Z then None
  else Some (External "OverflowError").

Definition signed_pdf : bytes := [Byte.x25; Byte.x50; Byte.x44; Byte.x46].

(** A backend with one document for every signature, a storage that keeps
    the name it is given and never fails. *)
Definition demo_env : Env :=
  mkEnv 1000
        (fun t => Ok (ascii_slugify t))
        (fun _ => Ok [mkStream 1 (Ok signed_pdf)])
        (fun _ _ => None)
        (fun _ name _ => Ok name)
        decimal_int int64_key_error.

(** The same, with a backend that fails. *)
Definition failing_backend_env : Env :=
  mkEnv 1000 (fun t => Ok (ascii_slugify t))
        (fun _ => Raise (External "UpstreamFetchError"))
        (fun _ _ => None) (fun _ name _ => Ok name)
        decimal_int int64_key_error.

(** The same, with a backend that has no document. *)
Definition empty_backend_env : Env :=
  mkEnv 1000 (fun t => Ok (ascii_slugify t))
        (fun _ => Ok [])
        (fun _ _ => None) (fun _ name _ => Ok name)
        decimal_int int64_key_error.

(** The same as [demo_env], with a storage that refuses to write. *)
Definition failing_storage_env : Env :=
  mkEnv 1000 (fun t => Ok (ascii_slugify t))
        (fun _ => Ok [mkStream 1 (Ok signed_pdf)])
        (fun _ _ => None) (fun _ _ _ => Raise (External "IOError"))
        decimal_int int64_key_error.

Definition demo_signature : Signature :=
  mkSignature 1 1 "envelope-1" None "Contract Q3" "draft" 500.

Definition demo_signer : Signer :=
  mkSigner 7 1 "recipient-2" "Ada Lovelace" "ada@example.com" 2 "sent" 600 EmptyString.

Definition demo_state : State :=
  mkState {[ 7 := demo_signer ]} {[ 1 := demo_signature ]} ∅ demo_signature [].

(** A signature whose document is stored. *)
Definition stored_signature : Signature :=
  mkSignature 2 1 "envelope-2" (Some "signatures/lease.pdf") "Lease" "completed" 500.

Definition stored_state : State :=
  mkState {[ 7 := demo_signer ]} {[ 2 := stored_signature ]}
          {[ "signatures/lease.pdf" := [Byte.x25] ]} stored_signature [].
(** Two signers of the same signature. *)
Definition second_signer : Signer :=
  mkSigner 9 1 "recipient-3" "Grace Hopper" "grace@example.com" 3 "sent" 600 EmptyString.

Definition two_signers_state : State :=
  mkState {[ 7 := demo_signer; 9 := second_signer ]} {[ 1 := demo_signature ]} ∅
          demo_signature [].

(** A signature that has been delivered, its document stored. *)
Definition delivered_signature : Signature :=
  mkSignature 3 1 "envelope-3" (Some "signatures/offer.pdf") "Offer" "delivered" 500.

Definition delivered_state : State :=
  mkState {[ 7 := demo_signer ]} {[ 3 := delivered_signature ]}
          {[ "signatures/offer.pdf" := [Byte.x25] ]} delivered_signature [].

(** A signer and a signature that have completed. *)
Definition completed_signer : Signer :=
  mkSigner 7 1 "recipient-2" "Ada Lovelace" "ada@example.com" 2 "completed" 600 EmptyString.

Definition completed_state : State :=
  mkState {[ 7 := completed_signer ]} {[ 2 := stored_signature ]}
          {[ "signatures/lease.pdf" := [Byte.x25] ]} stored_signature [].

(** An environment whose [slugify] raises and whose backend has another
    document. *)
Definition no_slug_env : Env :=
  mkEnv 2000 (fun _ => Raise (External "slugify"))
        (fun _ => Ok [mkStream 2 (Ok [Byte.x25; Byte.x21])])
        (fun _ _ => None) (fun _ name _ => Ok name)
        decimal_int int64_key_error.

(** ** The other views (views.py, lines 18-162)

    The session and a form's cleaned data are finite maps from names to
    values; the views that create a signature work on the tables of a
    [Db], with what Django, django_anysign and the backend decide in a
    [Site]. *)

(** A value of the session or of a form's cleaned data. *)
Inductive value :=
| VNone
| VStr (s : string)
| VInt (n : Z).

(** Truth value: [None], the empty string and zero are false. *)
Definition truthy (v : value) : bool :=
  match v with
  | VNone => false
  | VStr s => str_bool s
  | VInt n => negb (n =? 0)%Z
  end.

(** The keys of line 25. *)
Definition settings_keys : list string :=
  ["root_url"; "username"; "password"; "integrator_key"; "timeout"].

(** [docusign_settings(request)]: [session !! key] being [None] is the
    [KeyError] that the loop passes over. *)
Definition docusign_settings (session : gmap string value) : gmap string value :=
  foldl (fun data key =>
           match session !! key with
           | Some v => <[key := v]> data
           | None => data
           end) ∅ settings_keys.

(** [all(d)] on a dictionary: the truth of every key. *)
Definition all_keys (d : gmap string value) : bool :=
  forallb str_bool (map_to_list d).*1.

Definition set_pk (v : Z) (s : Signature) : Signature :=
  mkSignature v (signature_type s) (signature_backend_id s)
              (document s) (document_title s) (status s) (status_datetime s).

(** [Signature.objects.all()]: the instances built from the rows. *)
Definition objects_all (table : gmap Z Signature) : list Signature :=
  (fun kv => set_pk kv.1 kv.2) <$> map_to_list table.

(** The order of [order_by('-pk')]. *)
Definition pk_desc (a b : Signature) : Prop := pk b <= pk a.

#[global] Instance pk_desc_dec a b : Decision (pk_desc a b) := Z_le_dec (pk b) (pk a).

Definition order_by_pk_desc (l : list Signature) : list Signature :=
  merge_sort pk_desc l.

(** What a template context holds under a name. *)
Inductive context_value :=
| CBool (b : bool)
| CSignatures (l : list Signature)
| COther (v : value).

Module HomeView.
(** [get_context_data]; [base] is what the parent class answers. *)
Definition get_context_data (base : gmap string context_value)
    (session : gmap string value) (table : gmap Z Signature)
    : gmap string context_value :=
  let data := base in
  let data := <["has_settings" := CBool (all_keys (docusign_settings session))]> data in
  let data := <["latest_signatures" :=
                  CSignatures (take 5 (order_by_pk_desc (objects_all table)))]> data in
  data.
End HomeView.

Module SettingsView.
(** The loop of [form_valid] (lines 52-55): the session after it. *)
Definition form_valid (cleaned_data session : gmap string value) : gmap string value :=
  map_fold (fun key value session =>
              if truthy value then <[key := value]> session else session)
           session cleaned_data.

Definition get_initial (session : gmap string value) : gmap string value :=
  docusign_settings session.
End SettingsView.

Record SignatureType := mkSignatureType {
  type_pk : Z;
  signature_backend_code : string;
  docusign_template_id : string;
}.

(** The tables and the file storage the creation views write. *)
Record Db := mkDb {
  db_types : gmap Z SignatureType;
  db_signatures : gmap Z Signature;
  db_signers : gmap Z Signer;
  db_files : gmap string bytes;
}.

(** The form's cleaned data: title, signers as (name, email) in the order
    of the form, callback URL and, for the template form, template id. *)
Record CleanedData := mkCleanedData {
  cd_title : string;
  cd_signers : list (string * string);
  cd_callback_url : string;
  cd_template_id : string;
}.

(** What Django, django_anysign and the backend decide: the time at which
    a row is inserted, the default of [signature_backend_id], the name the
    storage gives an upload, and what the backend's [create_signature]
    does to the database (settings, signature, callback URL, subject). *)
Record Site := mkSite {
  clock : Db -> datetime;
  default_backend_id : string;
  upload : gmap string bytes -> string -> bytes -> result string;
  backend_create_signature :
    gmap string value -> Signature -> string -> string -> Db -> result unit * Db;
}.

Inductive response :=
| HttpResponseRedirect (url_name : string).

(** The key an [AutoField] gets: one that is not in use; the model takes
    the one after the largest, and at least 1. *)
Definition fresh_pk {A} (table : gmap Z A) : Z :=
  1 + foldr Z.max 0 (map_to_list table).*1.

(** The rows with these two fields. *)
Definition types_matching (code template_id : string) (table : gmap Z SignatureType)
    : list (Z * SignatureType) :=
  filter (fun kv => signature_backend_code kv.2 = code
                    /\ docusign_template_id kv.2 = template_id)
         (map_to_list table).

(** [SignatureType.objects.get_or_create(signature_backend_code=...,
    docusign_template_id=...)]: the key of the row. *)
Definition get_or_create (code template_id : string) (db : Db) : result Z * Db :=
  match types_matching code template_id (db_types db) with
  | [] =>
      let k := fresh_pk (db_types db) in
      (Ok k, mkDb (<[k := mkSignatureType k code template_id]> (db_types db))
                  (db_signatures db) (db_signers db) (db_files db))
  | [kv] => (Ok kv.1, db)
  | _ => (Raise (External "MultipleObjectsReturned"), db)
  end.

(** [signature.signers.create(full_name=..., email=..., signing_order=...,
    signature_backend_id=...)]: status and details take the defaults of
    models.py, the timestamp is [auto_now_add]. *)
Definition signers_create (site : Site) (signature_pk : Z) (name mail : string)
    (order : Z) (backend_id : string) (db : Db) : Db :=
  let k := fresh_pk (db_signers db) in
  mkDb (db_types db) (db_signatures db)
       (<[k := mkSigner k signature_pk backend_id name mail order
                        "draft" (clock site db) EmptyString]> (db_signers db))
       (db_files db).

(** [for position, signer_data in enumerate(signers)], from [position]. *)
Fixpoint add_signers (site : Site) (signature_pk : Z) (backend_id : string)
    (position : nat) (signers : list (string * string)) (db : Db) : Db :=
  match signers with
  | [] => db
  | (name, mail) :: rest =>
      add_signers site signature_pk backend_id (S position) rest
        (signers_create site signature_pk name mail
           (Z.of_nat position + 1) backend_id db)
  end.

(** Inserting a new signature row: the instance, and the table with what
    [save()] writes for it. *)
Definition signature_insert (site : Site) (type : Z) (doc : option string)
    (title : string) (db : Db) : Signature * Db :=
  let k := fresh_pk (db_signatures db) in
  let s := mkSignature k type (default_backend_id site) doc title "draft" (clock site db) in
  (s, mkDb (db_types db) (<[k := stored s]> (db_signatures db))
           (db_signers db) (db_files db)).

Module CreateSignatureTemplateView.
(** Lines 143-159 of [form_valid]: the signature and its signers. *)
Definition prepare (site : Site) (cd : CleanedData) (db : Db) : result Signature * Db :=
  match get_or_create "docusign" (cd_template_id cd) db with
  | (Raise e, db1) => (Raise e, db1)
  | (Ok type, db1) =>
      let '(signature, db2) := signature_insert site type None (cd_title cd) db1 in
      (Ok signature,
       add_signers site (pk signature) (default_backend_id site) 0 (cd_signers cd) db2)
  end.

(** [form_valid]: then the backend creates the envelope, and the parent
    class redirects to the success URL. *)
Definition form_valid (site : Site) (session : gmap string value)
    (cd : CleanedData) (db : Db) : result response * Db :=
  match prepare site cd db with
  | (Raise e, db1) => (Raise e, db1)
  | (Ok signature, db1) =>
      match backend_create_signature site (docusign_settings session) signature
              (cd_callback_url cd) (document_title signature) db1 with
      | (Raise e, db2) => (Raise e, db2)
      | (Ok _, db2) => (Ok (HttpResponseRedirect "home"), db2)
      end
  end.
End CreateSignatureTemplateView.

Module CreateSignatureView.
(** Lines 81-99 of [form_valid]: the signature with the uploaded document
    ([None] when the request has no file under 'document') and its
    signers. Saving the signature commits an upload whose name is not
    empty to the storage first. *)
Definition prepare (site : Site) (uploaded : option (string * bytes))
    (cd : CleanedData) (db : Db) : result Signature * Db :=
  match get_or_create "docusign" EmptyString db with
  | (Raise e, db1) => (Raise e, db1)
  | (Ok type, db1) =>
      match uploaded with
      | None => (Raise (External "MultiValueDictKeyError"), db1)
      | Some (String a n, content) =>
          match upload site (db_files db1) (String a n) content with
          | Raise e => (Raise e, db1)
          | Ok name =>
              let db2 := mkDb (db_types db1) (db_signatures db1) (db_signers db1)
                              (<[name := content]> (db_files db1)) in
              let '(signature, db3) :=
                signature_insert site type (Some name) (cd_title cd) db2 in
              (Ok signature,
               add_signers site (pk signature) EmptyString 0 (cd_signers cd) db3)
          end
      | Some (EmptyString, _) =>
          let '(signature, db2) :=
            signature_insert site type (Some EmptyString) (cd_title cd) db1 in
          (Ok signature,
           add_signers site (pk signature) EmptyString 0 (cd_signers cd) db2)
      end
  end.

Definition form_valid (site : Site) (session : gmap string value)
    (uploaded : option (string * bytes)) (cd : CleanedData) (db : Db)
    : result response * Db :=
  match prepare site uploaded cd db with
  | (Raise e, db1) => (Raise e, db1)
  | (Ok signature, db1) =>
      match backend_create_signature site (docusign_settings session) signature
              (cd_callback_url cd) (document_title signature) db1 with
      | (Raise e, db2) => (Raise e, db2)
      | (Ok _, db2) => (Ok (HttpResponseRedirect "home"), db2)
      end
  end.
End CreateSignatureView.

(** The signers of a signature. *)
Definition signers_of (signature_pk : Z) (table : gmap Z Signer) : gmap Z Signer :=
  filter (fun kv => signer_signature kv.2 = signature_pk) table.

(** The rows [add_signers] inserts, in the order of the form. *)
Fixpoint added_signers (site : Site) (signature_pk : Z) (backend_id : string)
    (position : nat) (signers : list (string * string)) (db : Db) : list Signer :=
  match signers with
  | [] => []
  | (name, mail) :: rest =>
      mkSigner (fresh_pk (db_signers db)) signature_pk backend_id name mail
               (Z.of_nat position + 1) "draft" (clock site db) EmptyString
      :: added_signers site signature_pk backend_id (S position) rest
           (signers_create site signature_pk name mail
              (Z.of_nat position + 1) backend_id db)
  end.

(** Every signer belongs to a signature of the table. *)
Definition signers_attached (db : Db) : Prop :=
  forall k s, db_signers db !! k = Some s -> is_Some (db_signatures db !! signer_signature s).

(** No two signature types with the same backend code and template id. *)
Definition types_unique (table : gmap Z SignatureType) : Prop :=
  forall k1 k2 t1 t2,
    table !! k1 = Some t1 -> table !! k2 = Some t2 ->
    signature_backend_code t1 = signature_backend_code t2 ->
    docusign_template_id t1 = docusign_template_id t2 -> k1 = k2.

(** The rows of a table, without their keys. *)
Definition rows_of (t : gmap Z Signer) : list Signer := (map_to_list t).*2.

(** ** Data for the examples of the other views *)

Definition demo_session : gmap string value :=
  {[ "username" := VStr "ada"; "timeout" := VInt 30; "csrftoken" := VStr "x" ]}.

Definition demo_settings_form : gmap string value :=
  {[ "username" := VStr "grace"; "password" := VStr EmptyString ]}.

Definition numbered_signature (k : Z) : Signature :=
  mkSignature k 1 "envelope" None "Lease" "draft" 500.

Definition six_signatures : gmap Z Signature :=
  list_to_map ((fun k => (k, numbered_signature k)) <$> [3; 1; 6; 2; 5; 4]).

Definition demo_site : Site :=
  mkSite (fun _ => 1000) EmptyString
         (fun _ name _ => Ok ("signatures/" ++ name))
         (fun _ _ _ _ db => (Ok tt, db)).

Definition demo_db : Db :=
  mkDb {[ 1 := mkSignatureType 1 "docusign" EmptyString ]}
       {[ 1 := demo_signature ]} {[ 7 := demo_signer ]} ∅.

Definition duplicate_db : Db :=
  mkDb {[ 1 := mkSignatureType 1 "docusign" "tpl-1"; 2 := mkSignatureType 2 "docusign" "tpl-1" ]}
       ∅ ∅ ∅.

Definition demo_cleaned_data : CleanedData :=
  mkCleanedData "Lease"
    [("Ada Lovelace", "ada@example.com"); ("Grace Hopper", "grace@example.com")]
    "http://localhost/callback" "tpl-1".

(** A backend whose document cannot be read. *)
Definition unreadable_env : Env :=
  mkEnv 1000 (fun t => Ok (ascii_slugify t))
        (fun _ => Ok [mkStream 3 (Raise (External "IOError"))])
        (fun _ _ => None) (fun _ name _ => Ok name)
        decimal_int int64_key_error.

(** ** Generic facts *)

Example ascii_slugify_contract : ascii_slugify "Contract Q3" = "contract-q3".
Proof. reflexivity. Qed.

Example decimal_int_reads :
  decimal_int " 7 " = Ok 7 /\ decimal_int "-12" = Ok (-12) /\
  decimal_int "abc" = Raise (External "ValueError") /\
  decimal_int EmptyString = Raise (External "ValueError").
Proof. repeat split. Qed.

Lemma events_of_app {A} (m : M A) st (l : list event) :
  log (snd (m st)) = (log st ++ l)%list -> events_of m st = l.
Proof. intros H. unfold events_of. rewrite H. apply drop_app_length. Qed.

Lemma update_signature_eq env status' dt st :
  update_signature env status' dt st =
  if fetch_needed status' st
  then bind (next env) (fun doc => try_finally (replace_document env doc) (stream_close doc))
            (saved status' st)
  else (Ok tt, saved status' st).
Proof.
  unfold update_signature, fetch_needed, bind, modify, signature_save, gets, saved; simpl.
  by destruct (_ || _).
Qed.

(** ** update_signer *)

Lemma update_signer_found env (signer_id : Z) status' dt message st s :
  signers st !! signer_id = Some s ->
  update_signer env signer_id status' dt message st =
  (Ok tt, emit (SaveSigner (updated_signer env signer_id status' dt message s))
            (with_signers (insert signer_id (updated_signer env signer_id status' dt message s)) st)).
Proof.
  intros H. unfold update_signer, bind, objects_get. simpl. by rewrite H.
Qed.

(** C2: for an existing signer, [update_signer] returns normally and
    writes one row: the signer's, with the given status, the given
    timestamp or the current time, the given message or the empty string,
    and every other field as it was; nothing else in the state changes. *)
Theorem update_signer_persists env (signer_id : Z) status' dt message st s :
  signers st !! signer_id = Some s ->
  exists st',
    update_signer env signer_id status' dt message st = (Ok tt, st') /\
    signers st' =
      <[signer_id := mkSigner signer_id (signer_signature s) (signer_backend_id s)
                       (full_name s) (email s) (signing_order s)
                       status'
                       (match dt with Some t => t | None => now env end)
                       (match message with Some m => m | None => EmptyString end)]> (signers st) /\
    signatures st' = signatures st /\
    files st' = files st /\
    self_signature st' = self_signature st /\
    events_of (update_signer env signer_id status' dt message) st =
      [SaveSigner (updated_signer env signer_id status' dt message s)].
Proof.
  intros H. eexists. split; [by apply update_signer_found|].
  repeat split; try done.
  apply events_of_app. by rewrite (update_signer_found _ _ _ _ _ _ _ H).
Qed.

Lemma update_signer_persists_witness :
  exists st',
    update_signer demo_env 7 "declined" (Some 777) (Some "recipient refused") demo_state
      = (Ok tt, st') /\
    signers st' !! 7 =
      Some (mkSigner 7 1 "recipient-2" "Ada Lovelace" "ada@example.com" 2
              "declined" 777 "recipient refused").
Proof.
  destruct (update_signer_persists demo_env 7 "declined" (Some 777)
              (Some "recipient refused") demo_state demo_signer eq_refl)
    as (st' & Hrun & Hs & _).
  exists st'. split; [exact Hrun|]. rewrite Hs. apply lookup_insert_eq.
Defined.

(** C7 (as the code has it): for a [signer_id] that resolves to no row,
    [update_signer] raises and leaves the whole state as it was: no row
    of either table is written, no file is touched, nothing is logged.
    The exception is [DoesNotExist] (the handler's not-found error) when
    the identifier is, or converts to, a key the database can hold; it is
    the exception of the conversion when [int()] rejects the identifier,
    and the database's own for a key it cannot hold. *)
Theorem update_signer_unresolved env signer_id status' dt message st :
  (forall k, to_key env signer_id = Ok k -> signers st !! k = None) ->
  exists e,
    update_signer env signer_id status' dt message st = (Raise e, st) /\
    (forall k, to_key env signer_id = Ok k -> key_error env k = None ->
       e = DoesNotExist) /\
    (forall k e', to_key env signer_id = Ok k -> key_error env k = Some e' -> e = e') /\
    (forall e', to_key env signer_id = Raise e' -> e = e').
Proof.
  intros H. unfold update_signer, bind, objects_get.
  destruct (to_key env signer_id) as [k|e] eqn:Hk.
  - rewrite (H k eq_refl). eexists. split; [done|].
    split; [|split]; intros; simplify_eq; simpl; by rewrite ?H1, ?H2.
  - eexists. split; [done|]. split; [|split]; intros; by simplify_eq.
Qed.

Lemma update_signer_unresolved_witness :
  exists e,
    update_signer demo_env 8 "sent" None None demo_state = (Raise e, demo_state) /\
    e = DoesNotExist.
Proof.
  destruct (update_signer_unresolved demo_env 8 "sent" None None demo_state)
    as (e & Hrun & He & _).
  { intros k Hk. injection Hk as <-. reflexivity. }
  exists e. split; [exact Hrun|]. by apply (He 8).
Defined.

(** C7 as stated fails: 'abc' and 2^63 resolve to no signer, and the
    handler raises [ValueError] for the one and, on a database with
    64-bit keys, [OverflowError] for the other, not the not-found error. *)
Lemma unresolved_id_other_errors :
  to_key demo_env (PkStr "abc") = Raise (External "ValueError") /\
  update_signer demo_env (PkStr "abc") "sent" None None demo_state
    = (Raise (External "ValueError"), demo_state) /\
  signers demo_state !! (2 ^ 63) = None /\
  update_signer demo_env (2 ^ 63) "sent" None None demo_state
    = (Raise (External "OverflowError"), demo_state) /\
  External "ValueError" <> DoesNotExist /\
  External "OverflowError" <> DoesNotExist.
Proof. repeat split; try reflexivity; discriminate. Qed.

(** ** update_signature: the ways through it *)

Ltac run_handler :=
  unfold replace_document, derive_filename, document_delete, stream_read,
    document_save, signature_save, stream_close, try_finally, bind, gets,
    modify, lift, ret, next in *; simpl in *.

Ltac paths := repeat (case_match; simplify_eq/=).

(** What [replace_document] leaves alone. *)
Lemma replace_document_frame env d st :
  let st' := snd (replace_document env d st) in
  signers st' = signers st /\
  set_document (document (self_signature st)) (self_signature st') = self_signature st /\
  (signatures st' = signatures st \/
   signatures st' = <[pk (self_signature st) := self_signature st']> (signatures st)).
Proof.
  destruct st as [sg ss fs [] lg]. run_handler. paths; auto.
Qed.

Lemma replace_document_log env d st :
  exists l : list event,
    log (snd (replace_document env d st)) = (log st ++ l)%list /\ fetched l = false.
Proof.
  run_handler. paths; rewrite <- ?app_assoc; eauto.
  all: try (exists []; by rewrite ?app_nil_r).
Qed.

Lemma try_finally_close {A} (body : M A) d st :
  try_finally body (stream_close d) st =
  (fst (body st), emit (StreamClose (handle d)) (snd (body st))).
Proof. unfold try_finally, stream_close, modify. by destruct (body st). Qed.

Lemma update_signature_skip env status' dt st :
  fetch_needed status' st = false ->
  update_signature env status' dt st = (Ok tt, saved status' st).
Proof. intros H. by rewrite update_signature_eq, H. Qed.

Lemma update_signature_fetch_raise env status' dt st e :
  fetch_needed status' st = true ->
  get_docusign_documents env (set_status status' (self_signature st)) = Raise e ->
  update_signature env status' dt st = (Raise e, asked status' st).
Proof.
  intros H Hg. rewrite update_signature_eq, H. unfold bind, next; simpl. by rewrite Hg.
Qed.

Lemma update_signature_fetch_empty env status' dt st :
  fetch_needed status' st = true ->
  get_docusign_documents env (set_status status' (self_signature st)) = Ok [] ->
  update_signature env status' dt st = (Raise StopIteration, asked status' st).
Proof.
  intros H Hg. rewrite update_signature_eq, H. unfold bind, next; simpl. by rewrite Hg.
Qed.

Lemma update_signature_fetch_doc env status' dt st d ds :
  fetch_needed status' st = true ->
  get_docusign_documents env (set_status status' (self_signature st)) = Ok (d :: ds) ->
  update_signature env status' dt st =
  (fst (replace_document env d (asked status' st)),
   emit (StreamClose (handle d)) (snd (replace_document env d (asked status' st)))).
Proof.
  intros H Hg. rewrite update_signature_eq, H. unfold bind, next; simpl. rewrite Hg.
  apply try_finally_close.
Qed.

(** The four ways through [update_signature]. *)
Lemma update_signature_path env status' dt st :
  path env status' st (update_signature env status' dt st).
Proof.
  destruct (fetch_needed status' st) eqn:H.
  - destruct (get_docusign_documents env (set_status status' (self_signature st)))
      as [[|d ds]|e] eqn:Hg.
    + rewrite (update_signature_fetch_empty _ _ _ _ H Hg). by constructor.
    + rewrite (update_signature_fetch_doc _ _ _ _ _ _ H Hg). by econstructor.
    + rewrite (update_signature_fetch_raise _ _ _ _ _ H Hg). by constructor.
  - rewrite (update_signature_skip _ _ _ _ H). by constructor.
Qed.

Lemma update_signature_log env status' dt st :
  log (snd (update_signature env status' dt st)) =
  (log st ++ events_of (update_signature env status' dt) st)%list.
Proof.
  assert (exists l : list event, log (snd (update_signature env status' dt st)) = (log st ++ l)%list)
    as [l Hl].
  { destruct (update_signature_path env status' dt st); simpl; eauto.
    - eexists. rewrite <- app_assoc. reflexivity.
    - eexists. rewrite <- app_assoc. reflexivity.
    - destruct (replace_document_log env d (asked status' st)) as (l & -> & _).
      simpl. eexists. rewrite <- !app_assoc. reflexivity. }
  by rewrite (events_of_app _ _ _ Hl).
Qed.

Lemma update_signature_events env status' dt st :
  events_of (update_signature env status' dt) st =
  SaveSignature (set_status status' (self_signature st)) ::
  (if fetch_needed status' st
   then FetchDocuments (pk (self_signature st)) ::
        match get_docusign_documents env (set_status status' (self_signature st)) with
        | Ok (d :: _) =>
            events_of (replace_document env d) (asked status' st) ++ [StreamClose (handle d)]
        | _ => []
        end
   else [])%list.
Proof.
  apply events_of_app.
  destruct (update_signature_path env status' dt st) as [H|e H Hg|H Hg|d ds H Hg];
    rewrite H, ?Hg; simpl; rewrite <- ?app_assoc; try done.
  destruct (replace_document_log env d (asked status' st)) as (l & Hl & _).
  rewrite (events_of_app _ _ _ Hl), Hl. simpl. by rewrite <- !app_assoc.
Qed.

Lemma fetched_app (l k : list event) : fetched (l ++ k) = fetched l || fetched k.
Proof. apply existsb_app. Qed.

Lemma fetched_events env status' dt st :
  fetched (events_of (update_signature env status' dt) st) = fetch_needed status' st.
Proof.
  rewrite update_signature_events. destruct (fetch_needed status' st); done.
Qed.

Lemma fetch_needed_spec status' st :
  fetch_needed status' st = true <->
  status' = "completed" \/ name_bool (document (self_signature st)) = false.
Proof.
  unfold fetch_needed. rewrite orb_true_iff, negb_true_iff, String.eqb_eq. done.
Qed.

(** C1: the backend is asked for the documents exactly when the new status
    is 'completed' or the signature has no stored document (the events of
    the run are what the run adds to the log); so with a document present,
    status 'sent' asks for nothing. *)
Theorem fetch_iff env status' dt st :
  log (snd (update_signature env status' dt st)) =
    (log st ++ events_of (update_signature env status' dt) st)%list /\
  (fetched (events_of (update_signature env status' dt) st) = true <->
   status' = "completed" \/ name_bool (document (self_signature st)) = false) /\
  (name_bool (document (self_signature st)) = true ->
   fetched (events_of (update_signature env "sent" dt) st) = false).
Proof.
  split; [apply update_signature_log|]. split.
  - rewrite fetched_events. apply fetch_needed_spec.
  - intros H. rewrite fetched_events. unfold fetch_needed. by rewrite H.
Qed.

Lemma fetch_iff_witness :
  fetched (events_of (update_signature demo_env "sent" None) stored_state) = false.
Proof.
  apply (fetch_iff demo_env "sent" None stored_state). reflexivity.
Defined.

(** C5: once the backend has handed over a document, closing it is the last
    thing [update_signature] does, whatever the outcome of the steps in
    between; that outcome (a normal return or the exception of the step
    that failed) is then the outcome of the handler. *)
Theorem stream_closed_on_every_exit env status' dt st d ds :
  fetch_needed status' st = true ->
  get_docusign_documents env (set_status status' (self_signature st)) = Ok (d :: ds) ->
  last (events_of (update_signature env status' dt) st) = Some (StreamClose (handle d)) /\
  last (log (snd (update_signature env status' dt st))) = Some (StreamClose (handle d)) /\
  fst (update_signature env status' dt st) =
    fst (replace_document env d (asked status' st)).
Proof.
  intros H Hg. split; [|split].
  - rewrite update_signature_events, H, Hg.
    rewrite !app_comm_cons. apply last_snoc.
  - rewrite (update_signature_fetch_doc _ _ _ _ _ _ H Hg). simpl. apply last_snoc.
  - by rewrite (update_signature_fetch_doc _ _ _ _ _ _ H Hg).
Qed.

Lemma stream_closed_on_every_exit_witness :
  fst (update_signature failing_storage_env "completed" None demo_state)
    = Raise (External "IOError") /\
  last (log (snd (update_signature failing_storage_env "completed" None demo_state)))
    = Some (StreamClose 1).
Proof.
  split; [reflexivity|].
  apply (stream_closed_on_every_exit failing_storage_env "completed" None demo_state
           (mkStream 1 (Ok signed_pdf)) []); reflexivity.
Defined.

(** What a run of [update_signature] leaves alone: the in-memory signature
    changes in its status and document only, its row holds the new status
    and differs from the signature the handler was entered with in status
    and document only, and no signer is written. *)
Lemma update_signature_frame env status' dt st :
  let st' := snd (update_signature env status' dt st) in
  signers st' = signers st /\
  set_document (document (self_signature st)) (self_signature st')
    = set_status status' (self_signature st) /\
  exists row, signatures st' !! pk (self_signature st) = Some row /\
    set_document (document (self_signature st)) row
      = set_status status' (self_signature st).
Proof.
  destruct (update_signature_path env status' dt st) as [H|e H Hg|H Hg|d ds H Hg]; simpl.
  1-3: split; [done|]; split; [by destruct st as [? ? ? [] ?]|];
       eexists; split; [apply lookup_insert_eq|by destruct st as [? ? ? [] ?]].
  destruct (replace_document_frame env d (asked status' st)) as (Hs & Hself & Hrow).
  simpl in Hs, Hself, Hrow. split; [done|].
  assert (set_document (document (self_signature st))
            (self_signature (snd (replace_document env d (asked status' st))))
          = set_status status' (self_signature st)) as Hself'.
  { rewrite <- Hself. by destruct (self_signature (snd _)). }
  split; [done|]. destruct Hrow as [-> | ->].
  - eexists; split; [apply lookup_insert_eq|by destruct st as [? ? ? [] ?]].
  - eexists; split; [apply lookup_insert_eq|done].
Qed.

(** C6: the first thing a run does is to write the signature with its new
    status; when the backend then fails on the documents, the handler
    raises the backend's exception, the row is what [save()] writes for
    the signature with the new status, and neither the signature's
    document nor any stored file has changed. *)
Theorem status_persisted_before_fetch env status' dt st :
  head (events_of (update_signature env status' dt) st)
    = Some (SaveSignature (set_status status' (self_signature st))) /\
  forall e,
    fetch_needed status' st = true ->
    get_docusign_documents env (set_status status' (self_signature st)) = Raise e ->
    let st' := snd (update_signature env status' dt st) in
    fst (update_signature env status' dt st) = Raise e /\
    events_of (update_signature env status' dt) st =
      [SaveSignature (set_status status' (self_signature st));
       FetchDocuments (pk (self_signature st))] /\
    signatures st' !! pk (self_signature st)
      = Some (stored (set_status status' (self_signature st))) /\
    status <$> signatures st' !! pk (self_signature st) = Some status' /\
    status (self_signature st') = status' /\
    document (self_signature st') = document (self_signature st) /\
    files st' = files st.
Proof.
  split; [by rewrite update_signature_events|].
  intros e H Hg. simpl.
  rewrite update_signature_events, H, Hg.
  rewrite (update_signature_fetch_raise _ _ _ _ _ H Hg). simpl.
  rewrite lookup_insert_eq. by repeat split.
Qed.

Lemma status_persisted_before_fetch_witness :
  status <$> signatures delivered_state !! 3 = Some "delivered" /\
  fst (update_signature failing_backend_env "completed" None delivered_state)
    = Raise (External "UpstreamFetchError") /\
  status <$>
    signatures (snd (update_signature failing_backend_env "completed" None delivered_state)) !! 3
    = Some "completed" /\
  files (snd (update_signature failing_backend_env "completed" None delivered_state))
    = files delivered_state.
Proof.
  destruct (status_persisted_before_fetch failing_backend_env "completed" None delivered_state)
    as [_ H].
  destruct (H (External "UpstreamFetchError") eq_refl eq_refl)
    as (Hr & _ & _ & Hrow & _ & _ & Hf).
  split; [reflexivity|]. split; [exact Hr|]. split; [exact Hrow|exact Hf].
Defined.

(** C10: when the documents are asked for and the backend has none, the
    handler raises [StopIteration] (the exception of [next()] on an
    exhausted iterator, not one of the handler's named errors); the row
    is already what [save()] writes for the signature with the new status,
    and neither the signature's document nor any stored file has
    changed. *)
Theorem empty_documents_raise env status' dt st :
  fetch_needed status' st = true ->
  get_docusign_documents env (set_status status' (self_signature st)) = Ok [] ->
  let st' := snd (update_signature env status' dt st) in
  fst (update_signature env status' dt st) = Raise StopIteration /\
  events_of (update_signature env status' dt) st =
    [SaveSignature (set_status status' (self_signature st));
     FetchDocuments (pk (self_signature st))] /\
  signatures st' !! pk (self_signature st)
    = Some (stored (set_status status' (self_signature st))) /\
  status <$> signatures st' !! pk (self_signature st) = Some status' /\
  document (self_signature st') = document (self_signature st) /\
  files st' = files st.
Proof.
  intros H Hg. simpl.
  rewrite update_signature_events, H, Hg.
  rewrite (update_signature_fetch_empty _ _ _ _ H Hg). simpl.
  rewrite lookup_insert_eq. by repeat split.
Qed.

Lemma empty_documents_raise_witness :
  fst (update_signature empty_backend_env "completed" None demo_state)
    = Raise StopIteration /\
  status <$> signatures (snd (update_signature empty_backend_env "completed" None demo_state)) !! 1
    = Some "completed".
Proof.
  destruct (empty_documents_raise empty_backend_env "completed" None demo_state
              eq_refl eq_refl) as (Hr & _ & _ & Hrow & _).
  split; [exact Hr|exact Hrow].
Defined.

(** [update_signature] never writes [status_datetime]: after any run the
    in-memory signature and its row carry the timestamp the handler was
    entered with, while the status is the new one. *)
Lemma update_signature_keeps_status_datetime env status' dt st :
  let st' := snd (update_signature env status' dt st) in
  status_datetime (self_signature st') = status_datetime (self_signature st) /\
  status_datetime <$> signatures st' !! pk (self_signature st)
    = Some (status_datetime (self_signature st)) /\
  status <$> signatures st' !! pk (self_signature st) = Some status'.
Proof.
  destruct (update_signature_frame env status' dt st) as (_ & Hself & row & Hrow & Heq).
  simpl. rewrite Hrow. simpl.
  split; [|split].
  - by apply (f_equal status_datetime) in Hself.
  - by apply (f_equal status_datetime) in Heq; simpl in Heq; rewrite Heq.
  - by apply (f_equal status) in Heq; simpl in Heq; rewrite Heq.
Qed.

(** C9 (the code departs from it): entered with a signature stamped 500,
    [update_signature] with status 'sent' and timestamp 999 writes the
    status and leaves the stamp at 500, in memory and in the row, while
    [update_signer] with the same arguments stamps the signer 999. *)
Theorem update_signature_stale_status_datetime :
  let st' := snd (update_signature demo_env "sent" (Some 999) stored_state) in
  fst (update_signature demo_env "sent" (Some 999) stored_state) = Ok tt /\
  status <$> signatures st' !! 2 = Some "sent" /\
  status_datetime <$> signatures st' !! 2 = Some 500 /\
  status_datetime (self_signature st') = 500 /\
  signer_status_datetime <$>
    signers (snd (update_signer demo_env 7 "sent" (Some 999) None stored_state)) !! 7
    = Some 999.
Proof. vm_compute. repeat split; reflexivity. Qed.

(** ** Status values and transitions *)

Lemma replace_document_raise env d st e :
  fst (replace_document env d st) = Raise e ->
  slugify env (document_title (self_signature st)) = Raise e
  \/ (exists fs name, storage_delete env fs name = Some e)
  \/ read d = Raise e
  \/ (exists fs name content, storage_save env fs name content = Raise e).
Proof.
  run_handler. paths; intros; simplify_eq; eauto 10.
Qed.

Lemma update_signature_raise env status' dt st e :
  fst (update_signature env status' dt st) = Raise e ->
  raised_by_collaborator env (set_status status' (self_signature st)) e.
Proof.
  unfold raised_by_collaborator.
  destruct (update_signature_path env status' dt st) as [H|e' H Hg|H Hg|d ds H Hg];
    simpl; intros He; simplify_eq; eauto.
  apply replace_document_raise in He. simpl in He.
  destruct He as [He|[He|[He|He]]]; eauto 10.
Qed.

(** C3 (as the code has it): no status value is checked against the
    choices. Whatever the string, [update_signer] on an existing signer
    returns normally with it in the signer's row, and [update_signature]
    writes it to the signature's row and to the in-memory signature; it
    returns normally when no document is asked for, and an exception it
    raises is one a collaborator answered (or [StopIteration] on an empty
    sequence), never a rejection of the status. *)
Theorem status_not_validated env (signer_id : Z) status' dt message st :
  (forall s, signers st !! signer_id = Some s ->
   fst (update_signer env signer_id status' dt message st) = Ok tt /\
   signer_status <$> signers (snd (update_signer env signer_id status' dt message st)) !! signer_id
     = Some status') /\
  (status <$> signatures (snd (update_signature env status' dt st)) !! pk (self_signature st)
     = Some status' /\
   status (self_signature (snd (update_signature env status' dt st))) = status') /\
  (fetch_needed status' st = false -> fst (update_signature env status' dt st) = Ok tt) /\
  (forall e, fst (update_signature env status' dt st) = Raise e ->
             raised_by_collaborator env (set_status status' (self_signature st)) e).
Proof.
  split; [|split; [|split]].
  - intros s H. rewrite (update_signer_found _ _ _ _ _ _ _ H). simpl.
    by rewrite lookup_insert_eq.
  - destruct (update_signature_frame env status' dt st) as (_ & Hself & _).
    split; [apply update_signature_keeps_status_datetime|].
    by apply (f_equal status) in Hself.
  - intros Hn. by rewrite (update_signature_skip _ _ _ _ Hn).
  - apply update_signature_raise.
Qed.

Lemma status_not_validated_witness :
  signer_status <$> signers (snd (update_signer demo_env 7 "bogus" None None demo_state)) !! 7
    = Some "bogus" /\
  status <$> signatures (snd (update_signature demo_env "bogus" None demo_state)) !! 1
    = Some "bogus".
Proof.
  destruct (status_not_validated demo_env 7 "bogus" None None demo_state)
    as (H1 & (H2 & _) & _).
  destruct (H1 demo_signer eq_refl) as (_ & H1').
  split; [exact H1' | exact H2].
Defined.

(** C3 as stated fails: 'bogus' is not one of the choices, and both
    handlers return normally with 'bogus' in the row. *)
Lemma unknown_status_accepted :
  ~ In "bogus" status_choices /\
  fst (update_signer demo_env 7 "bogus" None None demo_state) = Ok tt /\
  signer_status <$> signers (snd (update_signer demo_env 7 "bogus" None None demo_state)) !! 7
    = Some "bogus" /\
  fst (update_signature demo_env "bogus" None stored_state) = Ok tt /\
  status <$> signatures (snd (update_signature demo_env "bogus" None stored_state)) !! 2
    = Some "bogus".
Proof.
  split; [|vm_compute; repeat split; reflexivity].
  simpl. intros H. repeat destruct H as [H|H]; try discriminate H. done.
Qed.

(** C8 (as the code has it): the status a record holds plays no part in a
    callback. Two runs that differ only in the current status of the
    signer, or of the signature, end alike, and the row holds the reported
    status; so every transition is applied, those outside the forward-only
    table included. *)
Theorem transition_order_not_enforced env new dt message st (signer_id : Z) s old1 old2 :
  update_signer env signer_id new dt message
    (with_signers (insert signer_id (set_signer_status old1 s)) st)
  = update_signer env signer_id new dt message
      (with_signers (insert signer_id (set_signer_status old2 s)) st) /\
  update_signature env new dt (with_self (set_status old1) st)
  = update_signature env new dt (with_self (set_status old2) st) /\
  fst (update_signer env signer_id new dt message
         (with_signers (insert signer_id (set_signer_status old1 s)) st)) = Ok tt /\
  signer_status <$>
    signers (snd (update_signer env signer_id new dt message
                    (with_signers (insert signer_id (set_signer_status old1 s)) st)))
      !! signer_id = Some new /\
  status <$>
    signatures (snd (update_signature env new dt (with_self (set_status old1) st)))
      !! pk (self_signature st) = Some new.
Proof.
  assert (forall old, update_signer env signer_id new dt message
            (with_signers (insert signer_id (set_signer_status old s)) st)
          = (Ok tt, emit (SaveSigner (updated_signer env signer_id new dt message s))
               (with_signers (insert signer_id (updated_signer env signer_id new dt message s)) st)))
    as Hs.
  { intros old. erewrite update_signer_found; [|apply lookup_insert_eq].
    unfold with_signers, emit; simpl. by rewrite insert_insert_eq. }
  split; [by rewrite !Hs|]. split; [reflexivity|]. rewrite Hs. simpl.
  split; [done|]. split; [by rewrite lookup_insert_eq|].
  apply (update_signature_keeps_status_datetime env new dt (with_self (set_status old1) st)).
Qed.

(** C8 as stated fails: completed to sent is not in the spec's table
    ([spec_forward]), and both handlers apply it. *)
Lemma backward_transition_accepted :
  spec_forward "completed" "sent" = false /\
  signer_status <$> signers completed_state !! 7 = Some "completed" /\
  fst (update_signer demo_env 7 "sent" None None completed_state) = Ok tt /\
  signer_status <$> signers (snd (update_signer demo_env 7 "sent" None None completed_state)) !! 7
    = Some "sent" /\
  status (self_signature completed_state) = "completed" /\
  fst (update_signature demo_env "sent" None completed_state) = Ok tt /\
  status <$> signatures (snd (update_signature demo_env "sent" None completed_state)) !! 2
    = Some "sent".
Proof. vm_compute. repeat split; reflexivity. Qed.

(** ** The filename of the stored document *)

Lemma replace_document_filesave env d st :
  exists l : list event,
    log (snd (replace_document env d st)) = (log st ++ l)%list /\
    forall fn c, In (FileSave fn c) l -> names_file env (self_signature st) fn.
Proof.
  unfold names_file. run_handler.
  paths; rewrite <- ?app_assoc; try (eexists; split; [reflexivity|]);
    try (exists []; split; [by rewrite app_nil_r|]);
    simpl; intros fn c Hin; intuition (simplify_eq; eauto).
Qed.

Lemma update_signature_filesave env status' dt st fn c :
  In (FileSave fn c) (events_of (update_signature env status' dt) st) ->
  names_file env (self_signature st) fn.
Proof.
  rewrite update_signature_events. intros [H|H]; [done|].
  destruct (fetch_needed status' st); [|done].
  destruct H as [H|H]; [done|].
  destruct (get_docusign_documents _ _) as [[|d ds]|e]; try done.
  destruct (replace_document_filesave env d (asked status' st)) as (l & Hl & Hfn).
  rewrite (events_of_app _ _ _ Hl) in H.
  apply in_app_or in H as [H|[H|[]]]; [|done].
  apply Hfn in H. by destruct st as [? ? ? [] ?].
Qed.

(** The run of the [try] block when the document is stored under [F] and
    neither the storage's delete nor the stream's read fails. *)
Lemma replace_document_present env d st F content :
  document (self_signature st) = Some F -> F <> EmptyString ->
  storage_delete env (files st) F = None ->
  read d = Ok content ->
  replace_document env d st =
  document_save env F content
    (emit (StreamRead (handle d))
       (with_self (set_document None)
          (with_files (delete F) (emit (StorageDelete F) st)))).
Proof.
  intros HF Hne Hdel Hread. destruct F as [|a n]; [done|].
  unfold replace_document, derive_filename, document_delete, stream_read, bind, gets, lift, ret.
  simpl. rewrite HF. simpl. rewrite HF, Hdel. simpl. by rewrite Hread.
Qed.

(** The run of the [try] block when there is no document. *)
Lemma replace_document_absent env d st slug content :
  name_bool (document (self_signature st)) = false ->
  slugify env (document_title (self_signature st)) = Ok slug ->
  read d = Ok content ->
  replace_document env d st =
  document_save env (slug ++ ".pdf") content (emit (StreamRead (handle d)) st).
Proof.
  intros HF Hs Hread.
  unfold replace_document, derive_filename, document_delete, stream_read, bind, gets, lift, ret.
  simpl. rewrite HF, Hs. simpl.
  destruct (document (self_signature st)) as [[|a n]|]; try done; simpl; by rewrite Hread.
Qed.

Lemma document_save_log env fn content st :
  exists l : list event,
    log (snd (document_save env fn content st)) = (log st ++ FileSave fn content :: l)%list.
Proof.
  unfold document_save, signature_save, modify. simpl.
  destruct (storage_save env (files st) fn content); simpl; rewrite <- ?app_assoc; eauto.
Qed.

Lemma document_save_kept env fn content st :
  storage_save env (files st) fn content = Ok fn ->
  let st' := snd (document_save env fn content st) in
  fst (document_save env fn content st) = Ok tt /\
  document (self_signature st') = Some fn /\
  files st' !! fn = Some content /\
  signatures st' !! pk (self_signature st) = Some (self_signature st').
Proof.
  intros H. unfold document_save, signature_save, modify. simpl. rewrite H. simpl.
  repeat split; by rewrite lookup_insert_eq.
Qed.

Lemma update_signature_saves env status' dt st d ds fn content st0 :
  fetch_needed status' st = true ->
  get_docusign_documents env (set_status status' (self_signature st)) = Ok (d :: ds) ->
  replace_document env d (asked status' st) = document_save env fn content st0 ->
  (exists l0 : list event, log st0 = (log (asked status' st) ++ l0)%list) ->
  In (FileSave fn content) (events_of (update_signature env status' dt) st).
Proof.
  intros H Hg Hrun [l0 Hl0].
  rewrite update_signature_events, H, Hg.
  destruct (document_save_log env fn content st0) as [l Hl].
  assert (events_of (replace_document env d) (asked status' st)
          = (l0 ++ FileSave fn content :: l)%list) as ->.
  { apply events_of_app. rewrite Hrun, Hl, Hl0. by rewrite <- app_assoc. }
  right. right. rewrite in_app_iff. left. rewrite in_app_iff. right. by left.
Qed.

(** C4: in a run of [update_signature], any call of [document.save] is
    under the name of the document the handler was entered with, when it
    has one, and otherwise under the slug of the title followed by '.pdf';
    such a call is made when the documents are asked for, the backend
    hands one over and neither the delete nor the read fails. So a
    document stored under [F] is saved under [F] again by a 'completed'
    call, and with a storage that keeps the name it is given the signature
    and its row hold [F] with the new content afterwards. *)
Theorem stored_filename env dt st :
  (forall status' fn c,
     In (FileSave fn c) (events_of (update_signature env status' dt) st) ->
     match document (self_signature st) with
     | Some (String a n) => fn = String a n
     | _ => exists slug,
         slugify env (document_title (self_signature st)) = Ok slug /\ fn = slug ++ ".pdf"
     end) /\
  (forall status' F d ds content,
     fetch_needed status' st = true ->
     document (self_signature st) = Some F -> F <> EmptyString ->
     get_docusign_documents env (set_status status' (self_signature st)) = Ok (d :: ds) ->
     storage_delete env (files st) F = None ->
     read d = Ok content ->
     In (FileSave F content) (events_of (update_signature env status' dt) st)) /\
  (forall status' slug d ds content,
     name_bool (document (self_signature st)) = false ->
     slugify env (document_title (self_signature st)) = Ok slug ->
     get_docusign_documents env (set_status status' (self_signature st)) = Ok (d :: ds) ->
     read d = Ok content ->
     In (FileSave (slug ++ ".pdf") content)
        (events_of (update_signature env status' dt) st)) /\
  (forall F d ds content,
     document (self_signature st) = Some F -> F <> EmptyString ->
     get_docusign_documents env (set_status "completed" (self_signature st)) = Ok (d :: ds) ->
     storage_delete env (files st) F = None ->
     read d = Ok content ->
     storage_save env (delete F (files st)) F content = Ok F ->
     let st' := snd (update_signature env "completed" dt st) in
     fst (update_signature env "completed" dt st) = Ok tt /\
     document (self_signature st') = Some F /\
     files st' !! F = Some content /\
     document <$> signatures st' !! pk (self_signature st) = Some (Some F)).
Proof.
  split; [|split; [|split]].
  - intros status' fn c. apply update_signature_filesave.
  - intros status' F d ds content H HF Hne Hg Hdel Hread.
    eapply update_signature_saves; [done|done| |].
    + by apply replace_document_present.
    + simpl. eexists. rewrite <- !app_assoc. reflexivity.
  - intros status' slug d ds content HF Hs Hg Hread.
    eapply update_signature_saves; [|done| |].
    + unfold fetch_needed. rewrite HF. apply orb_true_r.
    + by apply replace_document_absent.
    + simpl. eexists. rewrite <- !app_assoc. reflexivity.
  - intros F d ds content HF Hne Hg Hdel Hread Hsave. simpl.
    rewrite (update_signature_fetch_doc env "completed" dt st d ds eq_refl Hg).
    rewrite (replace_document_present env d (asked "completed" st) F content HF Hne Hdel Hread).
    simpl.
    match goal with |- context [document_save env F content ?s] =>
      destruct (document_save_kept env F content s Hsave) as (Hr & Hd & Hf & Hrow) end.
    simpl in Hd, Hf, Hrow.
    repeat split; try done. by rewrite Hrow; simpl; rewrite Hd.
Qed.

Lemma stored_filename_witness :
  let st1 := snd (update_signature demo_env "completed" None demo_state) in
  let st2 := snd (update_signature no_slug_env "completed" None st1) in
  document (self_signature st1) = Some "contract-q3.pdf" /\
  fst (update_signature no_slug_env "completed" None st1) = Ok tt /\
  document (self_signature st2) = Some "contract-q3.pdf" /\
  files st2 !! "contract-q3.pdf" = Some [Byte.x25; Byte.x21] /\
  document <$> signatures st2 !! 1 = Some (Some "contract-q3.pdf").
Proof.
  split; [reflexivity|].
  destruct (stored_filename no_slug_env None
              (snd (update_signature demo_env "completed" None demo_state)))
    as (_ & _ & _ & H).
  apply (H "contract-q3.pdf" (mkStream 2 (Ok [Byte.x25; Byte.x21])) []);
    try reflexivity. discriminate.
Defined.

(** ** The settings views and the home page *)

Lemma settings_loop_lookup (session : gmap string value) keys (data : gmap string value) key :
  foldl (fun data key => match session !! key with
                         | Some v => <[key := v]> data
                         | None => data
                         end) data keys !! key
  = if decide (key ∈ keys)
    then match session !! key with Some v => Some v | None => data !! key end
    else data !! key.
Proof.
  revert data. induction keys as [|k keys IH]; intros data; cbn [foldl].
  - rewrite decide_False; [done|apply not_elem_of_nil].
  - rewrite IH. destruct (decide (key = k)) as [->|Hne].
    + rewrite (decide_True (P := k ∈ k :: keys)); [|by left].
      destruct (session !! k) eqn:Hk.
      * rewrite lookup_insert_eq. by case_decide.
      * by case_decide.
    + assert (session !! k = session !! k) as _ by done.
      destruct (decide (key ∈ keys)) as [Hin|Hin].
      * rewrite decide_True; [|by right].
        destruct (session !! key); [done|].
        destruct (session !! k); [by rewrite lookup_insert_ne|done].
      * rewrite decide_False; [|by intros [?|?]%elem_of_cons].
        destruct (session !! k); [by rewrite lookup_insert_ne|done].
Qed.

Lemma docusign_settings_lookup session key :
  docusign_settings session !! key =
  if decide (key ∈ settings_keys) then session !! key else None.
Proof.
  unfold docusign_settings. rewrite settings_loop_lookup.
  case_decide; [by destruct (session !! key)|done].
Qed.

(** X1: [docusign_settings] answers the session cut down to the five
    settings keys: a key of the five has the session's value, or is absent
    when the session has none (no error); any other key is absent. So its
    answer is part of the session, and applying it twice changes nothing. *)
Theorem docusign_settings_restricts session :
  (forall key, key ∈ settings_keys -> docusign_settings session !! key = session !! key) /\
  (forall key, key ∉ settings_keys -> docusign_settings session !! key = None) /\
  docusign_settings session ⊆ session /\
  docusign_settings (docusign_settings session) = docusign_settings session.
Proof.
  split; [|split; [|split]].
  - intros key H. rewrite docusign_settings_lookup. by rewrite decide_True.
  - intros key H. rewrite docusign_settings_lookup. by rewrite decide_False.
  - apply map_subseteq_spec. intros key v. rewrite docusign_settings_lookup.
    by case_decide.
  - apply map_eq. intros key. rewrite !docusign_settings_lookup.
    by case_decide.
Qed.

Lemma docusign_settings_restricts_witness :
  docusign_settings demo_session !! "username" = demo_session !! "username".
Proof.
  apply (docusign_settings_restricts demo_session). unfold settings_keys.
  repeat constructor.
Defined.

Lemma docusign_settings_keys session key v :
  docusign_settings session !! key = Some v -> key ∈ settings_keys.
Proof. rewrite docusign_settings_lookup. by case_decide. Qed.

Lemma settings_keys_true key : key ∈ settings_keys -> str_bool key = true.
Proof.
  unfold settings_keys. rewrite !elem_of_cons, elem_of_nil.
  intros [->|[->|[->|[->|[->|[]]]]]]; reflexivity.
Qed.

(** X2: the home page's [has_settings] is true for every session, the
    empty one included: [all] runs over the keys of the settings, which
    are non-empty names. *)
Theorem has_settings_always base session table :
  HomeView.get_context_data base session table !! "has_settings" = Some (CBool true).
Proof.
  unfold HomeView.get_context_data.
  rewrite lookup_insert_ne by done. rewrite lookup_insert_eq.
  do 2 f_equal. unfold all_keys. apply forallb_forall.
  intros key Hin. apply list_elem_of_In in Hin.
  apply list_elem_of_fmap in Hin as [[k v] [-> Hkv]].
  apply elem_of_map_to_list in Hkv. simpl.
  eapply settings_keys_true, docusign_settings_keys. done.
Qed.

Lemma form_valid_lookup cleaned_data session key :
  SettingsView.form_valid cleaned_data session !! key =
  match cleaned_data !! key with
  | Some v => if truthy v then Some v else session !! key
  | None => session !! key
  end.
Proof.
  unfold SettingsView.form_valid.
  apply (map_fold_weak_ind (fun (r : gmap string value) (m : gmap string value) =>
    r !! key = match m !! key with
               | Some v => if truthy v then Some v else session !! key
               | None => session !! key
               end)).
  - by rewrite lookup_empty.
  - intros i x m r Hi IH. destruct (decide (i = key)) as [->|Hne].
    + rewrite lookup_insert_eq. destruct (truthy x).
      * by rewrite lookup_insert_eq.
      * by rewrite IH, Hi.
    + rewrite (lookup_insert_ne m) by done.
      destruct (truthy x); [by rewrite lookup_insert_ne|done].
Qed.

#[global] Instance pk_desc_total : Total pk_desc.
Proof. intros a b. unfold pk_desc. lia. Qed.

#[global] Instance pk_desc_trans : Transitive pk_desc.
Proof. intros a b c. unfold pk_desc. lia. Qed.

Lemma objects_all_pks table : pk <$> objects_all table = (map_to_list table).*1.
Proof.
  unfold objects_all. rewrite <- list_fmap_compose. apply list_fmap_ext.
  by intros ? [k row].
Qed.

Lemma elem_of_objects_all table s :
  s ∈ objects_all table <-> exists row, table !! pk s = Some row /\ s = set_pk (pk s) row.
Proof.
  unfold objects_all. rewrite list_elem_of_fmap. split.
  - intros [[k row] [-> H]]. apply elem_of_map_to_list in H. simpl. eauto.
  - intros (row & H & Hs). exists (pk s, row). split; [done|].
    by apply elem_of_map_to_list.
Qed.

Lemma strictly_sorted_pks (l : list Signature) :
  StronglySorted pk_desc l -> NoDup (pk <$> l) ->
  StronglySorted (fun a b => pk b < pk a) l.
Proof.
  induction 1 as [|a l Hl IH Ha]; intros Hnd; [constructor|].
  rewrite fmap_cons in Hnd. apply NoDup_cons in Hnd as [Hnot Hnd].
  constructor; [by apply IH|].
  rewrite Forall_forall in *. intros b Hb.
  assert (pk b <> pk a).
  { intros Heq. apply Hnot. rewrite <- Heq. apply list_elem_of_fmap. eauto. }
  specialize (Ha b Hb). unfold pk_desc in Ha. lia.
Qed.

Lemma order_by_pk_desc_sorted table :
  StronglySorted (fun a b => pk b < pk a) (order_by_pk_desc (objects_all table)).
Proof.
  apply strictly_sorted_pks.
  - apply StronglySorted_merge_sort; apply _.
  - unfold order_by_pk_desc. rewrite merge_sort_Permutation, objects_all_pks.
    apply NoDup_fst_map_to_list.
Qed.

(** X3: the home page's [latest_signatures] are the signatures of the
    table with the largest keys: five of them, or all when there are
    fewer, by strictly decreasing key, each one a row of the table; a row
    that is left out has a key below all those listed. *)
Theorem latest_signatures_are_the_five_largest base session table :
  exists l,
    HomeView.get_context_data base session table !! "latest_signatures"
      = Some (CSignatures l) /\
    length l = Nat.min 5 (size table) /\
    StronglySorted (fun a b => pk b < pk a) l /\
    (forall s, s ∈ l -> exists row, table !! pk s = Some row /\ s = set_pk (pk s) row) /\
    (forall k row, table !! k = Some row ->
       set_pk k row ∈ l \/ (length l = 5%nat /\ forall s, s ∈ l -> k < pk s)).
Proof.
  eexists. split; [apply lookup_insert_eq|].
  set (sorted := order_by_pk_desc (objects_all table)).
  assert (sorted ≡ₚ objects_all table) as Hperm by apply merge_sort_Permutation.
  assert (StronglySorted (fun a b => pk b < pk a) (take 5 sorted ++ drop 5 sorted)%list) as Hs.
  { rewrite take_drop. apply order_by_pk_desc_sorted. }
  split; [|split; [|split]].
  - rewrite length_take, Hperm. unfold objects_all.
    by rewrite length_fmap, length_map_to_list.
  - by apply StronglySorted_app_1_l in Hs.
  - intros s Hin. apply elem_of_objects_all. rewrite <- Hperm.
    by apply (subseteq_take 5).
  - intros k row Hk.
    assert (set_pk k row ∈ (take 5 sorted ++ drop 5 sorted)%list) as Hin.
    { rewrite take_drop, Hperm. apply elem_of_objects_all. simpl. eauto. }
    apply elem_of_app in Hin as [Hin|Hin]; [by left|right]. split.
    + rewrite length_take. apply list_elem_of_lookup in Hin as [i Hi].
      apply lookup_lt_Some in Hi. rewrite length_drop in Hi. lia.
    + intros s Hs'.
      apply (StronglySorted_app_1_elem_of _ _ _ s (set_pk k row)) in Hs; done.
Qed.

Lemma latest_signatures_are_the_five_largest_witness :
  exists l,
    HomeView.get_context_data ∅ demo_session six_signatures !! "latest_signatures"
      = Some (CSignatures l) /\
    length l = 5%nat /\
    (numbered_signature 1 ∈ l \/ forall s, s ∈ l -> 1 < pk s).
Proof.
  destruct (latest_signatures_are_the_five_largest ∅ demo_session six_signatures)
    as (l & H1 & H2 & _ & _ & H5).
  exists l. split; [exact H1|]. split; [exact H2|].
  destruct (H5 1 (numbered_signature 1) eq_refl) as [H|[_ H]]; [by left|by right].
Defined.

(** X4: the settings form stores in the session the values that are true
    and nothing else: a field whose value is empty, zero or [None] leaves
    the session's value for that name as it was, and so do the names the
    form does not have. *)
Theorem form_valid_keeps_true_values cleaned_data session :
  (forall key v, cleaned_data !! key = Some v -> truthy v = true ->
     SettingsView.form_valid cleaned_data session !! key = Some v) /\
  (forall key v, cleaned_data !! key = Some v -> truthy v = false ->
     SettingsView.form_valid cleaned_data session !! key = session !! key) /\
  (forall key, cleaned_data !! key = None ->
     SettingsView.form_valid cleaned_data session !! key = session !! key).
Proof.
  repeat split; intros key; [intros v H Ht|intros v H Ht|intros H];
    rewrite form_valid_lookup, H, ?Ht; done.
Qed.

Lemma form_valid_keeps_true_values_witness :
  SettingsView.form_valid demo_settings_form demo_session !! "username" = Some (VStr "grace") /\
  SettingsView.form_valid demo_settings_form demo_session !! "password"
    = demo_session !! "password".
Proof.
  destruct (form_valid_keeps_true_values demo_settings_form demo_session) as (H1 & H2 & _).
  split; [by apply H1|by apply (H2 _ (VStr EmptyString))].
Defined.

(** X5: saving what [get_initial] shows leaves the session as it was;
    and after [form_valid], [get_initial] shows, for a settings key, the
    value of the form when it is true and the session's earlier value
    when it is not. *)
Theorem settings_round_trip cleaned_data session :
  SettingsView.form_valid (SettingsView.get_initial session) session = session /\
  (forall key v, key ∈ settings_keys -> cleaned_data !! key = Some v -> truthy v = true ->
     SettingsView.get_initial (SettingsView.form_valid cleaned_data session) !! key = Some v) /\
  (forall key v, key ∈ settings_keys -> cleaned_data !! key = Some v -> truthy v = false ->
     SettingsView.get_initial (SettingsView.form_valid cleaned_data session) !! key
     = session !! key).
Proof.
  unfold SettingsView.get_initial. split; [|split].
  - apply map_eq. intros key. rewrite form_valid_lookup, docusign_settings_lookup.
    case_decide; [|done]. destruct (session !! key) as [v|]; [|done].
    by destruct (truthy v).
  - intros key v Hk H Ht.
    by rewrite docusign_settings_lookup, decide_True, form_valid_lookup, H, Ht.
  - intros key v Hk H Ht.
    by rewrite docusign_settings_lookup, decide_True, form_valid_lookup, H, Ht.
Qed.

Lemma settings_round_trip_witness :
  SettingsView.get_initial (SettingsView.form_valid demo_settings_form demo_session)
    !! "username" = Some (VStr "grace").
Proof.
  apply (settings_round_trip demo_settings_form demo_session); [|done..].
  unfold settings_keys. repeat constructor.
Defined.

(** ** The views that create a signature *)

Lemma fresh_pk_bound {A} (table : gmap Z A) k :
  is_Some (table !! k) -> k < fresh_pk table.
Proof.
  intros [x Hx]. unfold fresh_pk.
  assert (k ∈ (map_to_list table).*1) as Hin.
  { apply list_elem_of_fmap. exists (k, x). split; [done|]. by apply elem_of_map_to_list. }
  revert Hin. generalize ((map_to_list table).*1). intros l.
  induction l as [|a l IH]; [by intros ?%elem_of_nil|].
  intros [->|Hin]%elem_of_cons; simpl; [lia|]. specialize (IH Hin). lia.
Qed.

Lemma fresh_pk_fresh {A} (table : gmap Z A) : table !! fresh_pk table = None.
Proof.
  destruct (table !! fresh_pk table) eqn:H; [|done].
  assert (fresh_pk table < fresh_pk table) by (apply fresh_pk_bound; eauto). lia.
Qed.

Lemma fresh_pk_pos {A} (table : gmap Z A) : 1 <= fresh_pk table.
Proof.
  unfold fresh_pk. generalize ((map_to_list table).*1). intros l.
  induction l; simpl; lia.
Qed.

Lemma add_signers_frame site sig bid p l db :
  db_types (add_signers site sig bid p l db) = db_types db /\
  db_signatures (add_signers site sig bid p l db) = db_signatures db /\
  db_files (add_signers site sig bid p l db) = db_files db /\
  db_signers db ⊆ db_signers (add_signers site sig bid p l db).
Proof.
  revert p db. induction l as [|[name mail] l IH]; intros p db; simpl; [done|].
  destruct (IH (S p) (signers_create site sig name mail (Z.of_nat p + 1) bid db))
    as (H1 & H2 & H3 & H4).
  rewrite H1, H2, H3. repeat split; try done.
  etrans; [|exact H4]. simpl. apply insert_subseteq, fresh_pk_fresh.
Qed.

Lemma add_signers_rows site sig bid p l db sig' :
  rows_of (signers_of sig' (db_signers (add_signers site sig bid p l db)))
  ≡ₚ (rows_of (signers_of sig' (db_signers db)) ++
      filter (fun s => signer_signature s = sig') (added_signers site sig bid p l db))%list.
Proof.
  revert p db. induction l as [|[name mail] l IH]; intros p db; simpl.
  - by rewrite app_nil_r.
  - rewrite IH. simpl. unfold signers_of at 1.
    set (row := mkSigner _ _ _ _ _ _ _ _ _).
    destruct (decide (sig = sig')) as [->|Hne].
    + rewrite filter_cons_True by done.
      rewrite map_filter_insert_True by done.
      unfold rows_of at 1. rewrite map_to_list_insert.
      2:{ apply map_lookup_filter_None. left. apply fresh_pk_fresh. }
      simpl. fold (rows_of (signers_of sig' (db_signers db))).
      by rewrite <- Permutation_middle.
    + rewrite filter_cons_False by done.
      rewrite map_filter_insert_False by (simpl; congruence).
      rewrite delete_id; [done|apply fresh_pk_fresh].
Qed.

Lemma added_signers_spec site sig bid p l db :
  signing_order <$> added_signers site sig bid p l db
    = (fun i => Z.of_nat (p + i) + 1) <$> seq 0 (length l) /\
  (fun s => (full_name s, email s)) <$> added_signers site sig bid p l db = l /\
  Forall (fun s => signer_signature s = sig /\ signer_backend_id s = bid /\
                   signer_status s = "draft" /\ status_details s = EmptyString)
         (added_signers site sig bid p l db).
Proof.
  revert p db. induction l as [|[name mail] l IH]; intros p db; [done|].
  destruct (IH (S p) (signers_create site sig name mail (Z.of_nat p + 1) bid db))
    as (H1 & H2 & H3).
  cbn [added_signers length seq]. rewrite !fmap_cons, H1, H2.
  split; [|split; [done|by constructor]].
  f_equal; [simpl; f_equal; lia|].
  rewrite <- (fmap_S_seq 0), <- list_fmap_compose. apply list_fmap_ext.
  intros ? i ?. simpl. f_equal. lia.
Qed.

Lemma signers_of_fresh db :
  signers_attached db ->
  signers_of (fresh_pk (db_signatures db)) (db_signers db) = ∅.
Proof.
  intros Hatt. apply map_empty. intros k. apply map_lookup_filter_None.
  right. intros s Hk Hs. simpl in Hs.
  apply Hatt in Hk. rewrite Hs, fresh_pk_fresh in Hk. by destruct Hk.
Qed.

Lemma filter_all {A} (P : A -> Prop) `{forall x, Decision (P x)} (l : list A) :
  Forall P l -> filter P l = l.
Proof.
  induction 1 as [|x l Hx Hl IH]; [done|]. by rewrite filter_cons_True, IH.
Qed.

(** The signers [add_signers] gives a signature that had none. *)
Lemma add_signers_numbered site sig bid l db :
  signers_of sig (db_signers db) = ∅ ->
  exists rows,
    (map_to_list (signers_of sig (db_signers (add_signers site sig bid 0 l db)))).*2 ≡ₚ rows /\
    signing_order <$> rows = (fun i => Z.of_nat i + 1) <$> seq 0 (length l) /\
    (fun s => (full_name s, email s)) <$> rows = l /\
    Forall (fun s => signer_backend_id s = bid /\ signer_status s = "draft"
                     /\ status_details s = EmptyString) rows.
Proof.
  intros Hnone. exists (added_signers site sig bid 0 l db).
  destruct (added_signers_spec site sig bid 0 l db) as (H1 & H2 & H3).
  split; [|split; [done|split; [done|]]].
  - pose proof (add_signers_rows site sig bid 0 l db sig) as Hp.
    unfold rows_of in Hp. rewrite Hp, Hnone, map_to_list_empty. simpl.
    rewrite filter_all; [done|]. eapply Forall_impl; [exact H3|]. by intros s (? & _).
  - eapply Forall_impl; [exact H3|]. by intros s (_ & ? & ? & ?).
Qed.

Lemma get_or_create_frame code tid db r db1 :
  get_or_create code tid db = (r, db1) ->
  db_signatures db1 = db_signatures db /\ db_signers db1 = db_signers db /\
  db_files db1 = db_files db.
Proof.
  unfold get_or_create. destruct (types_matching _ _ _) as [|kv [|kv' l]];
    intros; by simplify_eq.
Qed.

(** X6: when either creation view has made its signature, in a database
    whose signers all belong to a signature of the table, the signers of
    the new signature are those of the form, in number and in names and
    emails, with signing orders 1, 2, ... in the order of the form, all
    in status 'draft' with empty details; the row of the signature is
    what [save()] writes for it (the document as its name, empty when
    there is none), in status 'draft', and the signers that were there
    are untouched. *)
Theorem created_signers_numbered site uploaded cd db signature db' :
  signers_attached db ->
  CreateSignatureTemplateView.prepare site cd db = (Ok signature, db')
  \/ CreateSignatureView.prepare site uploaded cd db = (Ok signature, db') ->
  db_signers db ⊆ db_signers db' /\
  db_signatures db' !! pk signature = Some (stored signature) /\
  status signature = "draft" /\
  exists rows,
    (map_to_list (signers_of (pk signature) (db_signers db'))).*2 ≡ₚ rows /\
    signing_order <$> rows = (fun i => Z.of_nat i + 1) <$> seq 0 (length (cd_signers cd)) /\
    (fun s => (full_name s, email s)) <$> rows = cd_signers cd /\
    Forall (fun s => signer_status s = "draft" /\ status_details s = EmptyString) rows.
Proof.
  intros Hatt Hrun.
  assert (exists db1 bid doc type,
    db_signatures db1 = db_signatures db /\ db_signers db1 = db_signers db /\
    signature = (signature_insert site type doc (cd_title cd) db1).1 /\
    db' = add_signers site (pk signature) bid 0 (cd_signers cd)
            (signature_insert site type doc (cd_title cd) db1).2) as
    (db1 & bid & doc & type & Hsig & Hsgn & -> & ->).
  { destruct Hrun as [Hrun|Hrun].
    - unfold CreateSignatureTemplateView.prepare in Hrun.
      destruct (get_or_create _ _ db) as [[type|e] db1] eqn:Hg; [|done].
      apply get_or_create_frame in Hg as (? & ? & _).
      unfold signature_insert in Hrun. simpl in Hrun. simplify_eq.
      by exists db1, (default_backend_id site), None, type.
    - unfold CreateSignatureView.prepare in Hrun.
      destruct (get_or_create _ _ db) as [[type|e] db1] eqn:Hg; [|done].
      apply get_or_create_frame in Hg as (? & ? & _).
      destruct uploaded as [[[|a n] content]|]; [| |done].
      + unfold signature_insert in Hrun. simpl in Hrun. simplify_eq.
        by exists db1, EmptyString, (Some EmptyString), type.
      + destruct (upload _ _ _ _) as [name|e]; [|done].
        unfold signature_insert in Hrun. simpl in Hrun. simplify_eq.
        by exists (mkDb (db_types db1) (db_signatures db1) (db_signers db1)
                     (<[name := content]> (db_files db1))),
                  EmptyString, (Some name), type. }
  simpl.
  match goal with |- context [add_signers site ?k ?b 0 ?l ?d] =>
    destruct (add_signers_frame site k b 0 l d) as (_ & H2 & _ & H4);
    destruct (add_signers_numbered site k b l d) as (rows & Hr1 & Hr2 & Hr3 & Hr4)
  end.
  { simpl. apply signers_of_fresh. intros k s. rewrite Hsgn, Hsig. apply Hatt. }
  simpl in *. split; [by rewrite <- Hsgn|]. split; [by rewrite H2, lookup_insert_eq|].
  split; [done|]. exists rows. repeat split; try done.
  eapply Forall_impl; [exact Hr4|]. by intros s (_ & ? & ?).
Qed.

Lemma demo_db_attached : signers_attached demo_db.
Proof.
  intros k s H. simpl in H. apply lookup_singleton_Some in H as [<- <-].
  simpl. by eexists.
Qed.

Lemma created_signers_numbered_witness :
  exists rows,
    (map_to_list (signers_of 2
       (db_signers (snd (CreateSignatureTemplateView.prepare demo_site demo_cleaned_data demo_db))))).*2
      ≡ₚ rows /\
    signing_order <$> rows = [1; 2] /\
    (fun s => (full_name s, email s)) <$> rows
      = [("Ada Lovelace", "ada@example.com"); ("Grace Hopper", "grace@example.com")].
Proof.
  destruct (created_signers_numbered demo_site None demo_cleaned_data demo_db
              (mkSignature 2 2 EmptyString None "Lease" "draft" 1000)
              (snd (CreateSignatureTemplateView.prepare demo_site demo_cleaned_data demo_db))
              demo_db_attached (or_introl eq_refl))
    as (_ & _ & _ & rows & H1 & H2 & H3 & _).
  exists rows. split; [exact H1|]. split; [exact H2|exact H3].
Defined.

Lemma elem_of_types_matching code tid table k t :
  (k, t) ∈ types_matching code tid table <->
  table !! k = Some t /\ signature_backend_code t = code /\ docusign_template_id t = tid.
Proof.
  unfold types_matching. rewrite list_elem_of_filter, elem_of_map_to_list. simpl. tauto.
Qed.

Lemma types_matching_NoDup code tid table : NoDup (types_matching code tid table).
Proof. apply NoDup_filter, NoDup_map_to_list. Qed.

(** With unique types, at most one row matches. *)
Lemma types_matching_unique code tid table :
  types_unique table ->
  types_matching code tid table = [] \/ exists kv, types_matching code tid table = [kv].
Proof.
  intros Hu. pose proof (types_matching_NoDup code tid table) as Hnd.
  destruct (types_matching code tid table) as [|[k1 t1] [|[k2 t2] l]] eqn:Hm; eauto.
  exfalso.
  assert ((k1, t1) ∈ types_matching code tid table) as H1 by (rewrite Hm; set_solver).
  assert ((k2, t2) ∈ types_matching code tid table) as H2 by (rewrite Hm; set_solver).
  apply elem_of_types_matching in H1 as (H1 & Hc1 & Ht1).
  apply elem_of_types_matching in H2 as (H2 & Hc2 & Ht2).
  assert (k1 = k2) as -> by (eapply Hu; eauto; congruence).
  assert (t1 = t2) as -> by congruence.
  apply NoDup_cons in Hnd as [Hnot _]. apply Hnot. by left.
Qed.

Lemma get_or_create_unique code tid db :
  types_unique (db_types db) ->
  exists k db1,
    get_or_create code tid db = (Ok k, db1) /\
    types_unique (db_types db1) /\
    db_types db ⊆ db_types db1 /\
    (exists t, db_types db1 !! k = Some t /\ signature_backend_code t = code
               /\ docusign_template_id t = tid) /\
    ((exists k0 t0, db_types db !! k0 = Some t0 /\ signature_backend_code t0 = code
                    /\ docusign_template_id t0 = tid) -> db1 = db).
Proof.
  intros Hu. unfold get_or_create.
  destruct (types_matching_unique code tid (db_types db) Hu) as [Hm|[[k t] Hm]]; rewrite Hm.
  - eexists _, _. split; [done|]. simpl.
    assert (forall k t, db_types db !! k = Some t ->
              signature_backend_code t = code -> docusign_template_id t = tid -> False) as Hno.
    { intros k t Hk Hc Ht.
      assert ((k, t) ∈ types_matching code tid (db_types db)) as Hin
        by by apply elem_of_types_matching.
      rewrite Hm in Hin. by apply elem_of_nil in Hin. }
    split; [|split; [|split]].
    + intros k1 k2 t1 t2 H1 H2 Hc Ht.
      apply lookup_insert_Some in H1 as [[<- <-]|[Hn1 H1]];
        apply lookup_insert_Some in H2 as [[<- <-]|[Hn2 H2]]; simpl in *; try done.
      * exfalso. eapply Hno; eauto.
      * exfalso. eapply Hno; eauto.
      * eapply Hu; eauto.
    + apply insert_subseteq, fresh_pk_fresh.
    + eexists. by rewrite lookup_insert_eq.
    + intros (k0 & t0 & H0 & Hc & Ht). exfalso. eapply Hno; eauto.
  - assert ((k, t) ∈ types_matching code tid (db_types db)) as Hin
      by (rewrite Hm; set_solver).
    apply elem_of_types_matching in Hin as (Hk & Hc & Ht).
    eexists _, _. split; [done|]. simpl. repeat split; eauto.
Qed.

(** X7: in a database with no two signature types of the same backend
    code and template id, the template view always makes its signature;
    both views leave the types unique and never remove one, the signature
    refers to a 'docusign' type with the asked template id (the empty one
    for the upload view), and the types are unchanged when such a type
    was there. *)
Theorem signature_type_reused site uploaded cd db :
  types_unique (db_types db) ->
  (exists signature db',
     CreateSignatureTemplateView.prepare site cd db = (Ok signature, db') /\
     types_unique (db_types db') /\
     db_types db ⊆ db_types db' /\
     (exists t, db_types db' !! signature_type signature = Some t /\
                signature_backend_code t = "docusign" /\
                docusign_template_id t = cd_template_id cd) /\
     ((exists k0 t0, db_types db !! k0 = Some t0 /\ signature_backend_code t0 = "docusign"
                     /\ docusign_template_id t0 = cd_template_id cd) ->
      db_types db' = db_types db)) /\
  (forall signature db',
     CreateSignatureView.prepare site uploaded cd db = (Ok signature, db') ->
     types_unique (db_types db') /\
     db_types db ⊆ db_types db' /\
     (exists t, db_types db' !! signature_type signature = Some t /\
                signature_backend_code t = "docusign" /\
                docusign_template_id t = EmptyString) /\
     ((exists k0 t0, db_types db !! k0 = Some t0 /\ signature_backend_code t0 = "docusign"
                     /\ docusign_template_id t0 = EmptyString) ->
      db_types db' = db_types db)).
Proof.
  intros Hu. split.
  - destruct (get_or_create_unique "docusign" (cd_template_id cd) db Hu)
      as (k & db1 & Hg & Hu1 & Hsub & Ht & Hsame).
    unfold CreateSignatureTemplateView.prepare. rewrite Hg.
    unfold signature_insert. simpl. eexists _, _. split; [done|].
    match goal with |- context [add_signers site ?p ?b 0 ?l ?d] =>
      destruct (add_signers_frame site p b 0 l d) as (H1 & _) end.
    simpl in H1. rewrite H1. repeat split; try done.
    intros H. by rewrite (Hsame H).
  - intros signature db' Hrun.
    destruct (get_or_create_unique "docusign" EmptyString db Hu)
      as (k & db1 & Hg & Hu1 & Hsub & Ht & Hsame).
    unfold CreateSignatureView.prepare in Hrun. rewrite Hg in Hrun.
    destruct uploaded as [[[|a n] content]|]; [| |done].
    + unfold signature_insert in Hrun. simpl in Hrun. simplify_eq.
      match goal with |- context [add_signers site ?p ?b 0 ?l ?d] =>
        destruct (add_signers_frame site p b 0 l d) as (H1 & _) end.
      simpl in *. rewrite H1. repeat split; try done.
      intros H. by rewrite (Hsame H).
    + destruct (upload _ _ _ _) as [name|e]; [|done].
      unfold signature_insert in Hrun. simpl in Hrun. simplify_eq.
      match goal with |- context [add_signers site ?p ?b 0 ?l ?d] =>
        destruct (add_signers_frame site p b 0 l d) as (H1 & _) end.
      simpl in *. rewrite H1. repeat split; try done.
      intros H. by rewrite (Hsame H).
Qed.

Lemma demo_db_types_unique : types_unique (db_types demo_db).
Proof.
  intros k1 k2 t1 t2 H1 H2 _ _. simpl in *.
  apply lookup_singleton_Some in H1 as [<- _].
  by apply lookup_singleton_Some in H2 as [<- _].
Qed.

Lemma signature_type_reused_witness :
  exists signature db',
    CreateSignatureTemplateView.prepare demo_site demo_cleaned_data demo_db
      = (Ok signature, db') /\
    types_unique (db_types db') /\
    db_types demo_db ⊆ db_types db'.
Proof.
  destruct (signature_type_reused demo_site None demo_cleaned_data demo_db
              demo_db_types_unique) as [(signature & db' & H1 & H2 & H3 & _) _].
  exists signature, db'. split; [exact H1|]. split; [exact H2|exact H3].
Defined.

(** X8: with two signature types of the backend code and template id
    looked for, [form_valid] of either view raises
    [MultipleObjectsReturned] and leaves the database as it was, whatever
    the backend would have done. *)
Theorem duplicate_types_stop_creation site session uploaded cd db k1 k2 t1 t2 :
  k1 <> k2 ->
  db_types db !! k1 = Some t1 -> db_types db !! k2 = Some t2 ->
  signature_backend_code t1 = "docusign" -> signature_backend_code t2 = "docusign" ->
  (docusign_template_id t1 = cd_template_id cd ->
   docusign_template_id t2 = cd_template_id cd ->
   CreateSignatureTemplateView.form_valid site session cd db
     = (Raise (External "MultipleObjectsReturned"), db)) /\
  (docusign_template_id t1 = EmptyString ->
   docusign_template_id t2 = EmptyString ->
   CreateSignatureView.form_valid site session uploaded cd db
     = (Raise (External "MultipleObjectsReturned"), db)).
Proof.
  intros Hne H1 H2 Hc1 Hc2.
  assert (forall tid, docusign_template_id t1 = tid -> docusign_template_id t2 = tid ->
            get_or_create "docusign" tid db = (Raise (External "MultipleObjectsReturned"), db))
    as Hg.
  { intros tid Ht1 Ht2. unfold get_or_create.
    assert ((k1, t1) ∈ types_matching "docusign" tid (db_types db)) as Hi1
      by by apply elem_of_types_matching.
    assert ((k2, t2) ∈ types_matching "docusign" tid (db_types db)) as Hi2
      by by apply elem_of_types_matching.
    destruct (types_matching "docusign" tid (db_types db)) as [|kv [|kv' l]]; [| |done].
    - by apply elem_of_nil in Hi1.
    - apply list_elem_of_singleton in Hi1, Hi2. congruence. }
  split; intros Ht1 Ht2.
  - unfold CreateSignatureTemplateView.form_valid, CreateSignatureTemplateView.prepare.
    by rewrite (Hg _ Ht1 Ht2).
  - unfold CreateSignatureView.form_valid, CreateSignatureView.prepare.
    by rewrite (Hg _ Ht1 Ht2).
Qed.

Lemma duplicate_types_stop_creation_witness :
  CreateSignatureTemplateView.form_valid demo_site demo_session demo_cleaned_data duplicate_db
    = (Raise (External "MultipleObjectsReturned"), duplicate_db).
Proof.
  apply (duplicate_types_stop_creation demo_site demo_session None demo_cleaned_data
           duplicate_db 1 2 (mkSignatureType 1 "docusign" "tpl-1")
           (mkSignatureType 2 "docusign" "tpl-1")); done.
Defined.

(** X9: a signature made by the template view has no document, so a
    callback entered with it, or with what its row holds, asks the
    backend for the documents whatever the status. *)
Theorem template_signature_always_fetches site cd db signature db' env status' dt st :
  CreateSignatureTemplateView.prepare site cd db = (Ok signature, db') ->
  self_signature st = signature \/ self_signature st = stored signature ->
  document signature = None /\
  fetched (events_of (update_signature env status' dt) st) = true.
Proof.
  intros Hrun Hself.
  assert (document signature = None) as Hdoc.
  { clear Hself. unfold CreateSignatureTemplateView.prepare in Hrun.
    destruct (get_or_create _ _ db) as [[type|e] db1]; [|done].
    unfold signature_insert in Hrun. simpl in Hrun. by simplify_eq/=. }
  split; [done|]. rewrite fetched_events. unfold fetch_needed.
  destruct Hself as [-> | ->]; [rewrite Hdoc|simpl; rewrite Hdoc]; apply orb_true_r.
Qed.

Lemma template_signature_always_fetches_witness :
  fetched (events_of (update_signature demo_env "sent" None)
             (mkState ∅ ∅ ∅ (mkSignature 2 2 EmptyString None "Lease" "draft" 1000) []))
    = true.
Proof.
  apply (template_signature_always_fetches demo_site demo_cleaned_data demo_db
           (mkSignature 2 2 EmptyString None "Lease" "draft" 1000)
           (snd (CreateSignatureTemplateView.prepare demo_site demo_cleaned_data demo_db)));
    [reflexivity|by left].
Defined.

(** X10: a signature made by the upload view carries the name the storage
    gave the upload, with the uploaded content stored under it when the
    upload has a name; and when that name is not empty, a callback entered
    with it asks the backend for the documents exactly on 'completed'. *)
Theorem uploaded_signature_fetches_when_completed
    site uploaded cd db signature db' env status' dt st :
  CreateSignatureView.prepare site uploaded cd db = (Ok signature, db') ->
  self_signature st = signature ->
  exists fname content name,
    uploaded = Some (fname, content) /\
    document signature = Some name /\
    (fname <> EmptyString ->
     upload site (db_files db) fname content = Ok name /\
     db_files db' !! name = Some content) /\
    (name <> EmptyString ->
     (fetched (events_of (update_signature env status' dt) st) = true
      <-> status' = "completed")).
Proof.
  intros Hrun Hself.
  unfold CreateSignatureView.prepare in Hrun.
  destruct (get_or_create _ _ db) as [[type|e] db1] eqn:Hg; [|done].
  apply get_or_create_frame in Hg as (_ & _ & Hf).
  rewrite <- Hself in Hrun |- *. clear Hself signature.
  assert (forall name, document (self_signature st) = Some name -> name <> EmptyString ->
            fetched (events_of (update_signature env status' dt) st) = true
            <-> status' = "completed") as Hfetch.
  { intros name Hdoc Hne. rewrite fetched_events.
    etrans; [apply fetch_needed_spec|]. rewrite Hdoc.
    destruct name; [done|]. simpl. split; [by intros [?|?]|by left]. }
  destruct uploaded as [[[|a n] content]|]; [| |done].
  - unfold signature_insert in Hrun. simpl in Hrun.
    exists EmptyString, content, EmptyString.
    injection Hrun as Hs Hdb. rewrite <- Hs. simpl. by repeat split.
  - destruct (upload _ _ _ _) as [name|e] eqn:Hup; [|done].
    unfold signature_insert in Hrun. simpl in Hrun.
    exists (String a n), content, name. split; [done|].
    injection Hrun as Hs Hdb.
    assert (document (self_signature st) = Some name) as Hdoc by by rewrite <- Hs.
    split; [done|]. split; [|by apply Hfetch].
    intros _. rewrite <- Hf. split; [done|]. rewrite <- Hdb.
    match goal with |- context [add_signers site ?p ?b 0 ?l ?d] =>
      destruct (add_signers_frame site p b 0 l d) as (_ & _ & H3 & _) end.
    rewrite H3. simpl. apply lookup_insert_eq.
Qed.

Lemma uploaded_signature_fetches_when_completed_witness :
  exists fname content name,
    Some ("lease.pdf", signed_pdf) = Some (fname, content) /\
    name = "signatures/lease.pdf" /\
    (fetched (events_of (update_signature demo_env "delivered" None)
                (mkState ∅ ∅ ∅
                   (mkSignature 2 1 EmptyString (Some "signatures/lease.pdf")
                      "Lease" "draft" 1000) [])) = true
     <-> "delivered" = "completed").
Proof.
  destruct (uploaded_signature_fetches_when_completed demo_site
              (Some ("lease.pdf", signed_pdf)) demo_cleaned_data demo_db
              (mkSignature 2 1 EmptyString (Some "signatures/lease.pdf") "Lease" "draft" 1000)
              (snd (CreateSignatureView.prepare demo_site (Some ("lease.pdf", signed_pdf))
                      demo_cleaned_data demo_db))
              demo_env "delivered" None
              (mkState ∅ ∅ ∅
                 (mkSignature 2 1 EmptyString (Some "signatures/lease.pdf")
                    "Lease" "draft" 1000) [])
              eq_refl eq_refl)
    as (fname & content & name & H1 & H2 & _ & H4).
  exists fname, content, name. split; [exact H1|].
  assert (name = "signatures/lease.pdf") as Hn by (simpl in H2; congruence).
  split; [exact Hn|]. apply H4. by rewrite Hn.
Defined.

(** ** Callbacks one after another, and what they leave alone *)

Lemma update_signer_absent env (id : Z) s d m st :
  signers st !! id = None ->
  update_signer env id s d m st = (Raise (default DoesNotExist (key_error env id)), st).
Proof.
  intros H. unfold update_signer, bind, objects_get. simpl. by rewrite H.
Qed.

Lemma update_signer_signers env (id : Z) s d m st row :
  signers st !! id = Some row ->
  signers (snd (update_signer env id s d m st))
  = <[id := updated_signer env id s d m row]> (signers st).
Proof. intros H. by rewrite (update_signer_found _ _ _ _ _ _ _ H). Qed.

Lemma update_signer_dom env (id : Z) s d m st :
  dom (signers (snd (update_signer env id s d m st))) = dom (signers st).
Proof.
  destruct (signers st !! id) as [row|] eqn:H.
  - rewrite (update_signer_signers _ _ _ _ _ _ _ H), dom_insert_L.
    apply subseteq_union_1_L, singleton_subseteq_l, elem_of_dom. eauto.
  - by rewrite (update_signer_absent _ _ _ _ _ _ H).
Qed.

(** X11: of two [update_signer] calls for the same signer the second
    alone decides the table of signers: it is what the second call gives
    without the first. *)
Theorem update_signer_last_write_wins env1 env2 (id : Z) s1 d1 m1 s2 d2 m2 st :
  signers (snd (update_signer env2 id s2 d2 m2 (snd (update_signer env1 id s1 d1 m1 st))))
  = signers (snd (update_signer env2 id s2 d2 m2 st)).
Proof.
  destruct (signers st !! id) as [row|] eqn:H.
  - rewrite (update_signer_signers env2 _ _ _ _ st row H).
    erewrite (update_signer_signers env2);
      [|rewrite (update_signer_signers env1 _ _ _ _ st row H); apply lookup_insert_eq].
    rewrite (update_signer_signers env1 _ _ _ _ st row H).
    by rewrite insert_insert_eq.
  - by rewrite (update_signer_absent env1 _ _ _ _ _ H).
Qed.

(** X12: [update_signer] calls for two different signers give the same
    table of signers in either order; a call neither adds nor removes a
    row, and leaves the row of every other signer as it was. *)
Theorem update_signer_commutes env1 env2 (id1 id2 : Z) s1 d1 m1 s2 d2 m2 st :
  id1 <> id2 ->
  signers (snd (update_signer env2 id2 s2 d2 m2 (snd (update_signer env1 id1 s1 d1 m1 st))))
  = signers (snd (update_signer env1 id1 s1 d1 m1 (snd (update_signer env2 id2 s2 d2 m2 st))))
  /\ dom (signers (snd (update_signer env1 id1 s1 d1 m1 st))) = dom (signers st)
  /\ forall id, id <> id1 ->
       signers (snd (update_signer env1 id1 s1 d1 m1 st)) !! id = signers st !! id.
Proof.
  intros Hne. split; [|split; [apply update_signer_dom|]].
  - destruct (signers st !! id1) as [r1|] eqn:H1; destruct (signers st !! id2) as [r2|] eqn:H2.
    + pose proof (update_signer_signers env1 id1 s1 d1 m1 st r1 H1) as E1.
      pose proof (update_signer_signers env2 id2 s2 d2 m2 st r2 H2) as E2.
      rewrite (update_signer_signers env2 id2 s2 d2 m2 _ r2), E1
        by (by rewrite E1, lookup_insert_ne).
      rewrite (update_signer_signers env1 id1 s1 d1 m1 _ r1), E2
        by (by rewrite E2, lookup_insert_ne).
      by apply insert_insert_ne.
    + rewrite (update_signer_absent env2 id2 _ _ _ st H2).
      rewrite update_signer_absent; [done|].
      by rewrite (update_signer_signers env1 _ _ _ _ st r1 H1), lookup_insert_ne.
    + rewrite (update_signer_absent env1 id1 _ _ _ st H1).
      symmetry. rewrite update_signer_absent; [done|].
      by rewrite (update_signer_signers env2 _ _ _ _ st r2 H2), lookup_insert_ne.
    + repeat (rewrite ?(update_signer_absent env1 id1 _ _ _ st H1),
                      ?(update_signer_absent env2 id2 _ _ _ st H2); simpl).
      done.
  - intros id Hid. destruct (signers st !! id1) as [r1|] eqn:H1.
    + by rewrite (update_signer_signers env1 _ _ _ _ st r1 H1), lookup_insert_ne.
    + by rewrite (update_signer_absent env1 id1 _ _ _ st H1).
Qed.

Lemma update_signer_commutes_witness :
  signers (snd (update_signer demo_env 9 "declined" (Some 30) (Some "refused")
                  (snd (update_signer demo_env 7 "sent" None None two_signers_state))))
  = signers (snd (update_signer demo_env 7 "sent" None None
                    (snd (update_signer demo_env 9 "declined" (Some 30) (Some "refused")
                            two_signers_state)))).
Proof.
  apply (update_signer_commutes demo_env demo_env 7 9 "sent" None None
           "declined" (Some 30) (Some "refused") two_signers_state). done.
Defined.

Lemma replace_document_read_fails env d st F e :
  document (self_signature st) = Some F -> F <> EmptyString ->
  storage_delete env (files st) F = None ->
  read d = Raise e ->
  replace_document env d st =
  (Raise e, emit (StreamRead (handle d))
              (with_self (set_document None)
                 (with_files (delete F) (emit (StorageDelete F) st)))).
Proof.
  intros HF Hne Hdel Hread. destruct F as [|a n]; [done|].
  unfold replace_document, derive_filename, document_delete, stream_read, bind, gets, lift, ret.
  simpl. rewrite HF. simpl. rewrite HF, Hdel. simpl. by rewrite Hread.
Qed.

(** X13: when the signature has a stored document and, after its file has
    been deleted, the read of the new document or the storage of its
    content raises, [update_signature] raises that exception with the old
    file gone from the storage, the in-memory signature without document,
    and the row still naming the deleted file; the stream is closed. *)
Theorem failure_after_delete_loses_document env status' dt st F d ds e :
  fetch_needed status' st = true ->
  document (self_signature st) = Some F -> F <> EmptyString ->
  get_docusign_documents env (set_status status' (self_signature st)) = Ok (d :: ds) ->
  storage_delete env (files st) F = None ->
  read d = Raise e
  \/ (exists content, read d = Ok content /\
        storage_save env (delete F (files st)) F content = Raise e) ->
  let st' := snd (update_signature env status' dt st) in
  fst (update_signature env status' dt st) = Raise e /\
  files st' = delete F (files st) /\
  document (self_signature st') = None /\
  document <$> signatures st' !! pk (self_signature st) = Some (Some F) /\
  last (log st') = Some (StreamClose (handle d)).
Proof.
  intros H HF Hne Hg Hdel Hfail. simpl.
  rewrite (update_signature_fetch_doc _ _ _ _ _ _ H Hg).
  destruct Hfail as [Hread|(content & Hread & Hsave)].
  - rewrite (replace_document_read_fails env d (asked status' st) F e HF Hne Hdel Hread).
    simpl. rewrite lookup_insert_eq. simpl. rewrite HF.
    repeat split; try done. apply last_snoc.
  - rewrite (replace_document_present env d (asked status' st) F content HF Hne Hdel Hread).
    unfold document_save. simpl. rewrite Hsave. simpl.
    rewrite lookup_insert_eq. simpl. rewrite HF.
    repeat split; try done. apply last_snoc.
Qed.

Lemma failure_after_delete_loses_document_witness :
  let st' := snd (update_signature unreadable_env "completed" None stored_state) in
  fst (update_signature unreadable_env "completed" None stored_state)
    = Raise (External "IOError") /\
  files st' = delete "signatures/lease.pdf" (files stored_state) /\
  document (self_signature st') = None /\
  document <$> signatures st' !! 2 = Some (Some "signatures/lease.pdf") /\
  last (log st') = Some (StreamClose 3).
Proof.
  apply (failure_after_delete_loses_document unreadable_env "completed" None stored_state
           "signatures/lease.pdf" (mkStream 3 (Raise (External "IOError"))) []
           (External "IOError")); try reflexivity; [done|by left].
Defined.

Lemma replace_document_ok env d st :
  fst (replace_document env d st) = Ok tt ->
  let st' := snd (replace_document env d st) in
  exists name content,
    read d = Ok content /\
    document (self_signature st') = Some name /\
    files st' !! name = Some content /\
    signatures st' !! pk (self_signature st) = Some (self_signature st').
Proof.
  destruct st as [sg ss fs [] lg]. run_handler.
  paths; intros; simplify_eq; eexists _, _; rewrite !lookup_insert_eq; done.
Qed.

(** X14: when [update_signature] has asked for the documents and returns
    normally, the signature names a document whose stored content is what
    was read, and its row is the in-memory signature; if that name is not
    empty, a later callback with a status other than 'completed' returns
    normally, asks the backend for nothing and leaves the files alone. *)
Theorem stored_document_stops_fetching env status' dt st d ds :
  fetch_needed status' st = true ->
  get_docusign_documents env (set_status status' (self_signature st)) = Ok (d :: ds) ->
  fst (update_signature env status' dt st) = Ok tt ->
  let st' := snd (update_signature env status' dt st) in
  exists name content,
    read d = Ok content /\
    document (self_signature st') = Some name /\
    files st' !! name = Some content /\
    signatures st' !! pk (self_signature st) = Some (self_signature st') /\
    (name <> EmptyString ->
     forall env2 status2 dt2,
       status2 <> "completed" ->
       fst (update_signature env2 status2 dt2 st') = Ok tt /\
       fetched (events_of (update_signature env2 status2 dt2) st') = false /\
       files (snd (update_signature env2 status2 dt2 st')) = files st').
Proof.
  intros H Hg. simpl. rewrite (update_signature_fetch_doc _ _ _ _ _ _ H Hg). simpl.
  intros Hok. destruct (replace_document_ok env d (asked status' st) Hok)
    as (name & content & Hread & Hdoc & Hfile & Hrow).
  exists name, content. simpl in *.
  split; [done|]. split; [done|]. split; [done|]. split; [done|].
  intros Hne env2 status2 dt2 Hs2.
  match goal with |- context [update_signature env2 status2 dt2 ?x] =>
    assert (fetch_needed status2 x = false) as Hn
  end.
  { unfold fetch_needed; simpl. rewrite Hdoc.
    destruct name; [done|]. simpl.
    rewrite orb_false_r. by apply String.eqb_neq. }
  rewrite fetched_events, (update_signature_skip _ _ _ _ Hn). done.
Qed.

Lemma stored_document_stops_fetching_witness :
  let st' := snd (update_signature demo_env "completed" None demo_state) in
  exists name content,
    document (self_signature st') = Some name /\
    files st' !! name = Some content.
Proof.
  destruct (stored_document_stops_fetching demo_env "completed" None demo_state
              (mkStream 1 (Ok signed_pdf)) [] eq_refl eq_refl eq_refl)
    as (name & content & _ & H2 & H3 & _).
  by exists name, content.
Defined.

(** A signature with a document is written as it is. *)
Lemma stored_named s : name_bool (document s) = true -> stored s = s.
Proof. destruct s as [? ? ? [n|] ? ? ?]; [done|discriminate]. Qed.

Lemma replace_document_other_rows env d st k :
  k <> pk (self_signature st) ->
  signatures (snd (replace_document env d st)) !! k = signatures st !! k.
Proof.
  intros Hk. destruct (replace_document_frame env d st) as (_ & _ & [->| ->]); [done|].
  by rewrite lookup_insert_ne.
Qed.

(** X15: [update_signature] writes no signer and no row of another
    signature, and changes the in-memory signature in its status and
    document only; when no document is asked for it returns normally with
    the files as they were and the row equal to the in-memory signature. *)
Theorem update_signature_touches_one_row env status' dt st :
  let st' := snd (update_signature env status' dt st) in
  signers st' = signers st /\
  (forall k, k <> pk (self_signature st) -> signatures st' !! k = signatures st !! k) /\
  set_document (document (self_signature st)) (self_signature st')
    = set_status status' (self_signature st) /\
  (fetch_needed status' st = false ->
   fst (update_signature env status' dt st) = Ok tt /\
   files st' = files st /\
   self_signature st' = set_status status' (self_signature st) /\
   signatures st' !! pk (self_signature st) = Some (self_signature st')).
Proof.
  destruct (update_signature_frame env status' dt st) as (Hs & Hself & _).
  simpl in *. split; [done|]. split; [|split; [done|]].
  - intros k Hk.
    destruct (update_signature_path env status' dt st) as [H|e H Hg|H Hg|d ds H Hg]; simpl.
    1-3: by rewrite lookup_insert_ne.
    rewrite replace_document_other_rows by done. simpl. by rewrite lookup_insert_ne.
  - intros Hn. rewrite (update_signature_skip _ _ _ _ Hn). simpl.
    repeat split; try done. rewrite lookup_insert_eq. f_equal.
    apply stored_named. simpl. unfold fetch_needed in Hn.
    apply orb_false_elim in Hn as [_ Hn]. by apply negb_false_iff in Hn.
Qed.

Lemma update_signature_touches_one_row_witness :
  fst (update_signature demo_env "sent" None stored_state) = Ok tt /\
  files (snd (update_signature demo_env "sent" None stored_state)) = files stored_state.
Proof.
  destruct (update_signature_touches_one_row demo_env "sent" None stored_state)
    as (_ & _ & _ & H).
  destruct (H eq_refl) as (H1 & H2 & _). by split.
Defined.
